(** * Solar pro-forma generator: the calculation engine of [app.py]

    The script collects project parameters through form widgets, derives
    the live-preview figures (pricing totals, incentives, year-1 metrics,
    simple payback) and, when the generate button is pressed, fills the
    "25-Year Cash Flow" sheet row by row and recomputes the 25-year totals
    for the "Client Summary" sheet.

    Numbers.  The script computes on Python floats (and a few ints).  They
    are embedded here as exact rationals [Q]: every literal of the source
    ([0.30], [0.85], [1.5], ...) is the rational it denotes, [**] with an
    integer exponent is [Qpower], and no rounding takes place.  Equalities
    that hold by the shape of the computation are stated with [=];
    [==] ([Qeq]) is equality of the rational values.  The properties stated
    of the script are those that do not depend on the absence of
    rounding: equalities between the same operations on the same values,
    additions of zero, multiplications by one, and comparisons that
    rounding preserves.  Where two different computations of one rational
    are compared, the script is evaluated on binary64 floats instead
    (module [Binary64]), and the lemmas that hold of the rational values
    only say so.

    Exceptions.  Python operations that can raise (list indexing, true
    division) return a [result]; the exception is named by its class. *)

From Stdlib Require Import QArith Qpower ZArith List String Ascii Bool Lia Lqa.
From Stdlib Require Import Floats.

(** Decimal float literals stand for the nearest binary64 value. *)
Set Warnings "-inexact-float".
Import ListNotations.

Open Scope Q_scope.

(** ** Python values and operations *)

Inductive result (A : Type) : Type :=
| Ok (a : A)
| Raise (exn : string).

Arguments Ok {A} a.
Arguments Raise {A} exn.

Definition bind {A B : Type} (m : result A) (k : A -> result B) : result B :=
  match m with
  | Ok a => k a
  | Raise e => Raise e
  end.

Notation "x <- m ;; k" := (bind m (fun x => k))
  (at level 61, m at next level, right associativity).

(** A list comprehension whose element expression may raise. *)
Fixpoint mapM {A B : Type} (f : A -> result B) (l : list A) : result (list B) :=
  match l with
  | [] => Ok []
  | a :: l' => b <- f a ;; bs <- mapM f l' ;; Ok (b :: bs)
  end.

(** [sum(xs)]: left to right, starting from [0]. *)
Definition py_sum (xs : list Q) : Q := fold_left Qplus xs 0.

(** [range(lo, hi)]. *)
Definition py_range (lo hi : Z) : list Z :=
  map (fun i => (lo + Z.of_nat i)%Z) (seq 0 (Z.to_nat (hi - lo))).

(** [len(xs)]. *)
Definition len {A : Type} (xs : list A) : Z := Z.of_nat (List.length xs).

(** [xs[i]]: a negative index counts from the end, an index out of range
    raises [IndexError]. *)
Definition py_index {A : Type} (xs : list A) (i : Z) : result A :=
  let j := if (i <? 0)%Z then (i + len xs)%Z else i in
  if (j <? 0)%Z then Raise "IndexError"
  else match nth_error xs (Z.to_nat j) with
       | Some a => Ok a
       | None => Raise "IndexError"
       end.

(** [a / b]: raises [ZeroDivisionError] on a zero divisor. *)
Definition py_truediv (a b : Q) : result Q :=
  if Qeq_bool b 0 then Raise "ZeroDivisionError" else Ok (a / b).

(** [a > 0] on numbers. *)
Definition Qgtb (a b : Q) : bool := negb (Qle_bool a b).

(** ** Data model *)

(** The 17 pricing fields, in $/W, in the order the script stores them in
    the [pricing_inputs] dict. *)
Record Pricing : Type := mkPricing {
  modules_cost : Q;
  inverters_cost : Q;
  racking_cost : Q;
  ballast_cost : Q;
  electrical_cost : Q;
  other_materials_cost : Q;
  equipment_rental_cost : Q;
  roof_attachments_cost : Q;
  dumpsters_cost : Q;
  porta_john_cost : Q;
  safety_equipment_cost : Q;
  engineering_cost : Q;
  stamps_cost : Q;
  permits_cost : Q;
  meters_cost : Q;
  ix_fees_cost : Q;
  origination_cost : Q
}.

(** The values returned by the form widgets.  [md_srec_program] is the
    value of the "MD SREC Program" select box, which the script reads only
    for Maryland; [escalation_pct] is
    [float(escalation_rate.split("%")[0])], the number in front of the
    percent sign of the selected escalation option. *)
Record Inputs : Type := mkInputs {
  customer_name : string;
  project_name : string;
  system_size_kw : Q;
  jurisdiction : string;
  utility : string;
  electric_rate : Q;
  tsrf : Z;
  tax_bracket : Q;
  itc_status : string;
  md_srec_program : string;
  escalation_pct : Q;
  degradation : Q;
  pricing : Pricing
}.

(** One row of the "25-Year Cash Flow" sheet, columns B to K. *)
Record YearRecord : Type := mkYearRecord {
  year : Z;
  electric_rate_year : Q;
  production : Q;
  savings : Q;
  srec_val : Q;
  srecs : Q;
  srec_income : Q;
  tax_savings : Q;
  total_benefit : Q;
  cumulative : Q
}.

(** The "25-YEAR TOTALS" block of the "Client Summary" sheet. *)
Record Totals : Type := mkTotals {
  total_electric_savings : Q;
  total_srec_income : Q;
  total_tax_benefits : Q;
  grand_total : Q
}.

(** ** What the widgets let through *)

Definition jurisdiction_options : list string :=
  ["Maryland"; "Washington DC"]%string.
Definition utility_options : list string :=
  ["PEPCO Maryland"; "PEPCO DC"; "BGE"; "Potomac Edison"; "Other"]%string.
Definition itc_status_options : list string :=
  ["With ITC (30%)"; "Without ITC"]%string.
Definition md_srec_program_options : list string :=
  ["Standard SREC"; "Brighter Tomorrow SREC"]%string.
Definition escalation_pct_options : list Q := [2.0; 3.5; 5.0].

Definition memb (s : string) (opts : list string) : bool :=
  existsb (String.eqb s) opts.

Definition within (lo hi x : Q) : bool := Qle_bool lo x && Qle_bool x hi.

Definition pricing_values (p : Pricing) : list Q :=
  [ modules_cost p; inverters_cost p; racking_cost p; ballast_cost p;
    electrical_cost p; other_materials_cost p; equipment_rental_cost p;
    roof_attachments_cost p; dumpsters_cost p; porta_john_cost p;
    safety_equipment_cost p; engineering_cost p; stamps_cost p;
    permits_cost p; meters_cost p; ix_fees_cost p; origination_cost p ].

(** Select boxes return one of their options, number inputs a value
    between [min_value] and [max_value]. *)
Definition widgets_ok (inp : Inputs) : bool :=
  within 1.0 10000.0 (system_size_kw inp)
  && memb (jurisdiction inp) jurisdiction_options
  && memb (utility inp) utility_options
  && within 0.05 0.50 (electric_rate inp)
  && ((500 <=? tsrf inp)%Z && (tsrf inp <=? 2000)%Z)
  && within 0.0 0.50 (tax_bracket inp)
  && memb (itc_status inp) itc_status_options
  && memb (md_srec_program inp) md_srec_program_options
  && existsb (Qeq_bool (escalation_pct inp)) escalation_pct_options
  && within 0.0 0.02 (degradation inp)
  && forallb (within 0.0 5.0) (pricing_values (pricing inp)).

Definition valid_inputs (inp : Inputs) : Prop := widgets_ok inp = true.

(** ** The script *)

Section Script.

Variable inp : Inputs.

Definition system_size_w : Q := system_size_kw inp * 1000.

Definition srec_program : string :=
  if (jurisdiction inp =? "Maryland")%string
  then md_srec_program inp
  else "Standard SREC (DC)"%string.

Definition escalation : Q := escalation_pct inp / 100.

(** *** Pricing *)

Definition pricing_inputs : list (string * Q) :=
  let p := pricing inp in
  [ ("Modules", modules_cost p);
    ("Inverters", inverters_cost p);
    ("Racking", racking_cost p);
    ("Ballast Block", ballast_cost p);
    ("Electrical Material", electrical_cost p);
    ("Other Materials", other_materials_cost p);
    ("Equipment Rental", equipment_rental_cost p);
    ("Roof Attachments", roof_attachments_cost p);
    ("Dumpsters", dumpsters_cost p);
    ("Porta John", porta_john_cost p);
    ("Safety Equipment", safety_equipment_cost p);
    ("Engineering", engineering_cost p);
    ("Stamps", stamps_cost p);
    ("Permits", permits_cost p);
    ("Revenue Grade Meters", meters_cost p);
    ("IX Application Fees", ix_fees_cost p);
    ("Origination Costs", origination_cost p) ]%string.

(** [pricing_inputs.values()] *)
Definition values (d : list (string * Q)) : list Q := map snd d.

Definition total_per_watt : Q := py_sum (values pricing_inputs).
Definition total_cost : Q := total_per_watt * system_size_w.

(** The two assignments above are the whole of the pricing step: it has
    no statement that raises. *)
Definition pricing_aggregator : result (Q * Q) :=
  Ok (total_per_watt, total_cost).

(** *** Live preview: year-1 metrics *)

Definition year1_production : Q := system_size_kw inp * inject_Z (tsrf inp).
Definition year1_savings : Q := year1_production * electric_rate inp.

Definition srec_value : Q :=
  if (jurisdiction inp =? "Maryland")%string then
    if (srec_program =? "Standard SREC")%string
    then 55 * 0.90
    else 55 * 0.90 * 1.5
  else 460 * 0.85.

Definition year1_srecs : Q := year1_production / 1000.
Definition year1_srec_income : Q := year1_srecs * srec_value.

(** *** ITC and depreciation *)

Definition itc_amount : Q :=
  if (itc_status inp =? "With ITC (30%)")%string
  then total_cost * 0.30
  else 0.

Definition depreciable_basis : Q :=
  if (itc_status inp =? "With ITC (30%)")%string
  then total_cost * 0.85
  else total_cost.

Definition year1_depreciation : Q := depreciable_basis.
Definition year1_depreciation_tax_savings : Q :=
  year1_depreciation * tax_bracket inp.

Definition after_itc_cost : Q := total_cost - itc_amount.
Definition year1_total_benefit : Q :=
  year1_savings + year1_srec_income + year1_depreciation_tax_savings.

(** [a / d if d > 0 else 0]: the condition is evaluated first and only
    the chosen branch after it. *)
Definition simple_payback : result Q :=
  if Qgtb (year1_savings + year1_srec_income) 0
  then py_truediv after_itc_cost (year1_savings + year1_srec_income)
  else Ok 0.

(** *** Generate: the "25-Year Cash Flow" sheet *)

Definition md_acp : list Z :=
  ([55; 45; 35; 30; 30; 30; 30; 30; 0] ++ repeat 0 16)%Z.
Definition dc_acp : list Z :=
  ([460; 440; 420; 400; 380; 360; 340; 320; 300; 300; 300; 300; 300; 300;
    300; 300; 300] ++ repeat 100 8)%Z.

Definition acp_schedule : list Z :=
  if (jurisdiction inp =? "Washington DC")%string then dc_acp else md_acp.
Definition srec_multiplier : Q :=
  if (srec_program =? "Brighter Tomorrow SREC")%string then 1.5 else 1.0.
Definition srec_pct : Q :=
  if (jurisdiction inp =? "Washington DC")%string then 0.85 else 0.90.

(** [acp_schedule[year - 1] if year <= len(acp_schedule) else 0] *)
Definition acp_for_year (year : Z) : result Z :=
  if (year <=? len acp_schedule)%Z
  then py_index acp_schedule (year - 1)
  else Ok 0%Z.

(** The body of the year loop once the ACP of the year is known; the
    argument [cumulative] is the running total before this year. *)
Definition year_record (cumulative : Q) (year : Z) (acp : Z) : YearRecord :=
  let electric_rate_year := electric_rate inp * ((1 + escalation) ^ (year - 1)) in
  let production := year1_production * ((1 - degradation inp) ^ (year - 1)) in
  let savings := production * electric_rate_year in
  let srec_val := inject_Z acp * srec_pct * srec_multiplier in
  let srecs := production / 1000 in
  let srec_income := srecs * srec_val in
  let tax_savings :=
    if (year =? 1)%Z then year1_depreciation_tax_savings else 0 in
  let total_benefit := savings + srec_income + tax_savings in
  let cumulative := cumulative + total_benefit in
  mkYearRecord year electric_rate_year production savings srec_val srecs
               srec_income tax_savings total_benefit cumulative.

Definition year_row (cumulative : Q) (year : Z) : result YearRecord :=
  acp <- acp_for_year year ;;
  Ok (year_record cumulative year acp).

(** [for year in ...]: the state of the loop is the running [cumulative]
    and the rows written to the sheet so far. *)
Fixpoint cash_flow_loop (years : list Z) (cumulative_ : Q)
         (ws_cashflow : list YearRecord) : result (Q * list YearRecord) :=
  match years with
  | [] => Ok (cumulative_, ws_cashflow)
  | year :: rest =>
      row <- year_row cumulative_ year ;;
      cash_flow_loop rest (cumulative row) (ws_cashflow ++ [row])
  end.

Definition cash_flow : result (Q * list YearRecord) :=
  cash_flow_loop (py_range 1 26) (- after_itc_cost) [].

(** *** Generate: the 25-year totals of the "Client Summary" sheet *)

Definition electric_savings_term (y : Z) : Q :=
  year1_production * electric_rate inp * ((1 + escalation) ^ (y - 1))
  * ((1 - degradation inp) ^ (y - 1)).

Definition srec_income_term (y : Z) : result Q :=
  v <- (if (y <=? len acp_schedule)%Z
        then acp <- py_index acp_schedule (y - 1) ;;
             Ok (inject_Z acp * srec_pct * srec_multiplier)
        else Ok 0) ;;
  Ok ((year1_production * ((1 - degradation inp) ^ (y - 1)) / 1000) * v).

Definition summary_totals : result Totals :=
  let total_electric_savings :=
    py_sum (map electric_savings_term (py_range 1 26)) in
  terms <- mapM srec_income_term (py_range 1 26) ;;
  let total_srec_income := py_sum terms in
  let grand_total :=
    total_electric_savings + total_srec_income
    + year1_depreciation_tax_savings in
  Ok (mkTotals total_electric_savings total_srec_income
               year1_depreciation_tax_savings grand_total).

End Script.

(** The default form values of the script (the Maryland project the form
    opens with), and two variations of it. *)
Definition default_pricing : Pricing :=
  mkPricing 0.28 0.15 0.23 0.02 0.23 0.02 0.04 0.02 0.01 0.00 0.01 0.02 0.03
            0.03 0.01 0.00 0.05.

Definition default_inputs : Inputs :=
  mkInputs "NDMU" "Notre Dame MD" 236.6 "Maryland" "PEPCO Maryland" 0.135
           1250 0.21 "With ITC (30%)" "Standard SREC" 3.5 0.005
           default_pricing.


(** A Washington DC project, a Maryland project in the Brighter Tomorrow
    program, a project without ITC, and two form states the widgets cannot
    produce: no system at all (size 0), which exercises the payback guard,
    and a negative unit cost. *)
Definition dc_inputs : Inputs :=
  mkInputs "NDMU" "Notre Dame DC" 236.6 "Washington DC" "PEPCO DC" 0.147
           1250 0.21 "With ITC (30%)" "Standard SREC" 3.5 0.005
           default_pricing.

Definition brighter_inputs : Inputs :=
  mkInputs "NDMU" "Notre Dame MD" 236.6 "Maryland" "PEPCO Maryland" 0.135
           1250 0.21 "With ITC (30%)" "Brighter Tomorrow SREC" 2.0 0.005
           default_pricing.

Definition no_itc_inputs : Inputs :=
  mkInputs "NDMU" "Notre Dame MD" 236.6 "Maryland" "PEPCO Maryland" 0.135
           1250 0.21 "Without ITC" "Standard SREC" 5.0 0.005
           default_pricing.

Definition no_system_inputs : Inputs :=
  mkInputs "NDMU" "Notre Dame MD" 0 "Maryland" "PEPCO Maryland" 0.135
           1250 0.21 "With ITC (30%)" "Standard SREC" 3.5 0.005
           default_pricing.

Definition negative_cost_inputs : Inputs :=
  mkInputs "NDMU" "Notre Dame MD" 236.6 "Maryland" "PEPCO Maryland" 0.135
           1250 0.21 "With ITC (30%)" "Standard SREC" 3.5 0.005
           (mkPricing (-1) 0 0 0 0 0 0 0 0 0 0 0 0 0 0 0 0).

(** A form state with a jurisdiction that is not among the options of the
    select box. *)
Definition outside_options_inputs : Inputs :=
  mkInputs "NDMU" "Notre Dame MD" 236.6 "Virginia" "Other" 0.130
           1250 0.21 "With ITC (30%)" "Standard SREC" 3.5 0.005
           default_pricing.

(** The default project with a bell character (code 7) in front of the
    customer name. *)
Definition control_character_inputs : Inputs :=
  mkInputs (String "007"%char "NDMU") "Notre Dame MD" 236.6 "Maryland"
           "PEPCO Maryland" 0.135
           1250 0.21 "With ITC (30%)" "Standard SREC" 3.5 0.005
           default_pricing.

(** ** The ACP schedules as the specification words them

    Maryland: nine explicit years, then zero.  Washington DC: seventeen
    explicit years, then the floor of 100.  These follow the text of the
    specification and are compared with the lists of the script. *)

Inductive Jurisdiction : Type := Maryland | WashingtonDC.

(** The option of the "Jurisdiction" select box a jurisdiction stands for. *)
Definition jurisdiction_of_string (s : string) : option Jurisdiction :=
  if (s =? "Maryland")%string then Some Maryland
  else if (s =? "Washington DC")%string then Some WashingtonDC
  else None.

Definition spec_md_explicit : list Z :=
  [55; 45; 35; 30; 30; 30; 30; 30; 0]%Z.
Definition spec_dc_explicit : list Z :=
  [460; 440; 420; 400; 380; 360; 340; 320; 300; 300; 300; 300; 300; 300;
   300; 300; 300]%Z.

Definition spec_acp (j : Jurisdiction) (y : Z) : Z :=
  match j with
  | Maryland =>
      if (y <=? 9)%Z then nth (Z.to_nat (y - 1)) spec_md_explicit 0%Z
      else 0%Z
  | WashingtonDC =>
      if (y <=? 17)%Z then nth (Z.to_nat (y - 1)) spec_dc_explicit 0%Z
      else 100%Z
  end.

Definition spec_availability (j : Jurisdiction) : Q :=
  match j with
  | Maryland => 0.90
  | WashingtonDC => 0.85
  end.

Definition spec_enhanced_multiplier (program : string) : Q :=
  if (program =? "Brighter Tomorrow SREC")%string then 1.5 else 1.

(** ** Auxiliary definitions for the proofs *)

(** The schedule entry the guarded lookup returns for an in-range year. *)
Definition acp_at (inp : Inputs) (y : Z) : Z :=
  nth (Z.to_nat (y - 1)) (acp_schedule inp) 0%Z.

(** The rows the loop appends for [years] when no lookup fails. *)
Fixpoint rows_from (inp : Inputs) (cum : Q) (years : list Z)
  : list YearRecord :=
  match years with
  | [] => []
  | y :: rest =>
      let r := year_record inp cum y (acp_at inp y) in
      r :: rows_from inp (cumulative r) rest
  end.

(** The running total after the rows [rows], started from [cum]. *)
Definition final_cumulative (cum : Q) (rows : list YearRecord) : Q :=
  last (map cumulative rows) cum.

Definition in_horizon (y : Z) : Prop := (1 <= y <= 25)%Z.

(** The SREC unit value the sheet shows for [year], if the row exists. *)
Definition sheet_srec_val (inp : Inputs) (year_ : Z) : option Q :=
  match cash_flow inp with
  | Ok (_, ws) => option_map srec_val (nth_error ws (Z.to_nat (year_ - 1)))
  | Raise _ => None
  end.

Definition option_Qeqb (o : option Q) (q : Q) : bool :=
  match o with
  | Some p => Qeq_bool p q
  | None => false
  end.

(** Evaluates the comparisons of two string literals in the goal. *)
Ltac eval_string_tests :=
  repeat match goal with
         | |- context [String.eqb ?a ?b] =>
             let v := eval vm_compute in (String.eqb a b) in
             match v with
             | true => change (String.eqb a b) with true
             | false => change (String.eqb a b) with false
             end
         end.

(** ** More of the script *)

(** *** Default electric rate of a utility *)

Definition utility_rates : list (string * Q) :=
  [ ("PEPCO Maryland", 0.135);
    ("PEPCO DC", 0.147);
    ("BGE", 0.110);
    ("Potomac Edison", 0.125);
    ("Other", 0.130) ]%string.

(** [d[k]] on a dict written as the list of its items: a missing key
    raises [KeyError]. *)
Fixpoint py_getitem (d : list (string * Q)) (k : string) : result Q :=
  match d with
  | [] => Raise "KeyError"
  | (k', v) :: d' => if (k =? k')%string then Ok v else py_getitem d' k
  end.

(** The [value] the "Electric Rate" number input starts from. *)
Definition default_electric_rate (utility_ : string) : result Q :=
  py_getitem utility_rates utility_.

(** *** Escalation option *)

Definition escalation_rate_options : list string :=
  ["2.0% (Conservative)"; "3.5% (Moderate)"; "5.0% (Aggressive)"]%string.

(** [s.split(sep)[0]] for a one-character [sep]: the text in front of the
    first [sep], all of [s] when [sep] does not occur. *)
Fixpoint split_head (sep : ascii) (s : string) : string :=
  match s with
  | EmptyString => EmptyString
  | String c s' =>
      if Ascii.eqb c sep then EmptyString else String c (split_head sep s')
  end.

(** The text behind the first [sep], if [sep] occurs. *)
Fixpoint split_rest (sep : ascii) (s : string) : option string :=
  match s with
  | EmptyString => None
  | String c s' => if Ascii.eqb c sep then Some s' else split_rest sep s'
  end.

Definition digit_of (c : ascii) : option Z :=
  let n := Z.of_N (N_of_ascii c) in
  if ((48 <=? n) && (n <=? 57))%Z then Some (n - 48)%Z else None.

Fixpoint digits_value (acc : Z) (s : string) : option Z :=
  match s with
  | EmptyString => Some acc
  | String c s' =>
      match digit_of c with
      | Some d => digits_value (10 * acc + d) s'
      | None => None
      end
  end.

(** [float(s)] for [s] a plain decimal numeral, digits with at most one
    point and a digit on one side of it at least; the value is the
    rational the numeral denotes.  The other spellings [float] accepts
    (sign, exponent, surrounding blanks, underscores, [inf], [nan]) and
    the strings it rejects are not told apart here: both give [None]. *)
Definition float_of_decimal (s : string) : option Q :=
  let int_part := split_head "." s in
  let frac_part :=
    match split_rest "." s with
    | Some f => f
    | None => EmptyString
    end in
  if ((int_part =? "") && (frac_part =? ""))%string then None
  else
    match digits_value 0 int_part, digits_value 0 frac_part with
    | Some a, Some b =>
        let scale := (10 ^ Z.of_nat (String.length frac_part))%Z in
        Some (inject_Z (a * scale + b) / inject_Z scale)
    | _, _ => None
    end.

(** [float(escalation_rate.split("%")[0])] and the rate it gives. *)
Definition escalation_pct_of (escalation_rate : string) : option Q :=
  float_of_decimal (split_head "%" escalation_rate).

Definition escalation_of (escalation_rate : string) : option Q :=
  option_map (fun pct => pct / 100) (escalation_pct_of escalation_rate).

(** *** Name of the download *)

(** [s.replace(old, new)] for one-character [old] and [new].  Strings are
    byte strings here; a blank and an underscore are single bytes that do
    not occur inside the encoding of any other character. *)
Fixpoint py_replace_char (old new : ascii) (s : string) : string :=
  match s with
  | EmptyString => EmptyString
  | String c s' =>
      String (if Ascii.eqb c old then new else c) (py_replace_char old new s')
  end.

Definition filename (inp : Inputs) : string :=
  (py_replace_char " " "_" (customer_name inp) ++ "_"
   ++ py_replace_char " " "_" (project_name inp) ++ "_ProForma.xlsx")%string.

(** Does the character occur in the string? *)
Fixpoint occurs (c : ascii) (s : string) : bool :=
  match s with
  | EmptyString => false
  | String c' s' => Ascii.eqb c' c || occurs c s'
  end.

(** The same form state with another system size. *)
Definition set_system_size (k : Q) (inp : Inputs) : Inputs :=
  mkInputs (customer_name inp) (project_name inp) k (jurisdiction inp)
           (utility inp) (electric_rate inp) (tsrf inp) (tax_bracket inp)
           (itc_status inp) (md_srec_program inp) (escalation_pct inp)
           (degradation inp) (pricing inp).

(** *** Generate: the "Inputs & Assumptions" sheet

    Only the assignments of cell values and of number formats are
    modelled; fonts, fills, widths, alignments and merges are left out.  A
    cell key such as [f'B{row}'] is kept as the column letter and the row
    number. *)

Inductive PyVal : Type :=
| VStr (s : string)
| VInt (n : Z)
| VFloat (q : Q).

Inductive Write : Type :=
| SetValue (col : string) (row : Z) (v : PyVal)
| SetFormat (col : string) (row : Z) (number_format : string).

Definition currency_format : string := "$#,##0.00".
Definition pct_format : string := "0.00%".

(** [isinstance(value, (int, float))], with the number. *)
Definition number_of (v : PyVal) : option Q :=
  match v with
  | VStr _ => None
  | VInt n => Some (inject_Z n)
  | VFloat q => Some q
  end.

(** Truth value of a string: the empty string is false. *)
Definition truthy (s : string) : bool := negb (s =? "")%string.

(** The number format the loop over [inputs] gives to column C. *)
Definition inputs_number_format (value : PyVal) : option string :=
  match number_of value with
  | Some q =>
      if negb (Qle_bool 1 q) && Qgtb q 0 then Some pct_format
      else if Qgtb q 100 then Some currency_format
      else None
  | None => None
  end.

(** The address a write goes to. *)
Definition address (w : Write) : string * Z :=
  match w with
  | SetValue col row _ => (col, row)
  | SetFormat col row _ => (col, row)
  end.

Definition is_value (w : Write) : bool :=
  match w with
  | SetValue _ _ _ => true
  | SetFormat _ _ _ => false
  end.

Definition at_cell (col : string) (row : Z) (w : Write) : bool :=
  ((fst (address w) =? col)%string && (snd (address w) =? row)%Z).

(** What a cell holds after the writes: the last value assigned to it. *)
Definition cell_value (ws : list Write) (col : string) (row : Z)
  : option PyVal :=
  fold_left (fun acc w =>
               match w with
               | SetValue _ _ v => if at_cell col row w then Some v else acc
               | SetFormat _ _ _ => acc
               end) ws None.

Definition cell_format (ws : list Write) (col : string) (row : Z)
  : option string :=
  fold_left (fun acc w =>
               match w with
               | SetFormat _ _ f => if at_cell col row w then Some f else acc
               | SetValue _ _ _ => acc
               end) ws None.

(** Assigning to [cell.value] goes through openpyxl: a string is cut to
    its first 32767 characters and refused with [IllegalCharacterError]
    when what is left holds a control character other than tab, line feed
    and carriage return (the codes 0-8, 11, 12 and 14-31); the cell then
    holds the string.  Numbers are stored as they are.  One [ascii]
    stands for one character: text outside ASCII is not modelled. *)
Definition illegal_character (c : ascii) : bool :=
  let n := N_of_ascii c in
  ((n <=? 8) || ((11 <=? n) && (n <=? 12)) || ((14 <=? n) && (n <=? 31)))%N.

Definition max_cell_text : nat := N.to_nat 32767.

Definition check_string (s : string) : result string :=
  let s := substring 0 max_cell_text s in
  if existsb illegal_character (list_ascii_of_string s)
  then Raise "IllegalCharacterError"
  else Ok s.

(** [ws[f'{col}{row}'] = v] *)
Definition set_value (ws : list Write) (col : string) (row : Z) (v : PyVal)
  : result (list Write) :=
  match v with
  | VStr s => s' <- check_string s ;; Ok (ws ++ [SetValue col row (VStr s')])
  | _ => Ok (ws ++ [SetValue col row v])
  end.

(** [ws[f'{col}{row}'].number_format = f] *)
Definition set_format (ws : list Write) (col : string) (row : Z) (f : string)
  : list Write :=
  ws ++ [SetFormat col row f].

Section InputsSheet.

Variable inp : Inputs.

(** [f"{escalation:.1%}"]: the formatting of a float as a percentage with
    one decimal is not modelled; the text it gives is a parameter. *)
Variable format_pct1 : Q -> string.

Definition sheet_title : string :=
  (customer_name inp ++ " - " ++ project_name inp ++ " - Pro-Forma Inputs")%string.

Definition toggles : list (string * string * string) :=
  [ ("ITC Status", itc_status inp, "");
    ("SREC Program", srec_program inp, jurisdiction inp);
    ("Utility Company", utility inp, "");
    ("Escalation Rate", format_pct1 (escalation inp), "") ]%string.

Definition inputs : list (string * PyVal * string) :=
  [ ("Customer Name", VStr (customer_name inp), "");
    ("Project Name", VStr (project_name inp), "");
    ("System Size", VFloat (system_size_kw inp), "kW");
    ("Total System Cost", VFloat (total_cost inp), "$");
    ("Cost per Watt", VFloat (total_per_watt inp), "$/W");
    ("TSRF", VInt (tsrf inp), "");
    ("Electric Rate", VFloat (electric_rate inp), "$/kWh");
    ("Tax Bracket", VFloat (tax_bracket inp), "%");
    ("Panel Degradation", VFloat (degradation inp), "%/yr") ]%string.

(** [for label, value, note in toggles] *)
Fixpoint write_toggles (l : list (string * string * string)) (row : Z)
         (ws : list Write) : result (Z * list Write) :=
  match l with
  | [] => Ok (row, ws)
  | (label, value, note) :: rest =>
      let row := (row + 1)%Z in
      ws <- set_value ws "B" row (VStr label) ;;
      ws <- set_value ws "C" row (VStr value) ;;
      ws <- (if truthy note then set_value ws "E" row (VStr note)
             else Ok ws) ;;
      write_toggles rest row ws
  end.

(** [for label, value, unit in inputs] *)
Fixpoint write_inputs (l : list (string * PyVal * string)) (row : Z)
         (ws : list Write) : result (Z * list Write) :=
  match l with
  | [] => Ok (row, ws)
  | (label, value, unit_) :: rest =>
      let row := (row + 1)%Z in
      ws <- set_value ws "B" row (VStr label) ;;
      ws <- set_value ws "C" row value ;;
      let ws := match inputs_number_format value with
                | Some f => set_format ws "C" row f
                | None => ws
                end in
      ws <- set_value ws "D" row (VStr unit_) ;;
      write_inputs rest row ws
  end.

(** [for category, cost_per_w in pricing_inputs.items()] *)
Fixpoint write_costs (l : list (string * Q)) (row : Z) (ws : list Write)
  : result (Z * list Write) :=
  match l with
  | [] => Ok (row, ws)
  | (category, cost_per_w) :: rest =>
      let row := (row + 1)%Z in
      ws <- set_value ws "B" row (VStr category) ;;
      ws <- set_value ws "C" row (VFloat cost_per_w) ;;
      let ws := set_format ws "C" row "$0.00" in
      ws <- set_value ws "D" row (VFloat (cost_per_w * system_size_w inp)) ;;
      let ws := set_format ws "D" row currency_format in
      write_costs rest row ws
  end.

(** The sheet: the last value of [row] and the writes in program order,
    or the exception of the first assignment that fails. *)
Definition inputs_sheet : result (Z * list Write) :=
  ws <- set_value [] "B" 1 (VStr sheet_title) ;;
  let row := 3%Z in
  ws <- set_value ws "B" row (VStr "TOGGLE SETTINGS") ;;
  let row := (row + 1)%Z in
  ws <- set_value ws "B" row (VStr "Setting") ;;
  ws <- set_value ws "C" row (VStr "Value") ;;
  ws <- set_value ws "D" row (VStr "Unit") ;;
  ws <- set_value ws "E" row (VStr "Notes") ;;
  rw <- write_toggles toggles row ws ;;
  let row := (fst rw + 2)%Z in
  ws <- set_value (snd rw) "B" row (VStr "PROJECT INPUTS") ;;
  let row := (row + 1)%Z in
  ws <- set_value ws "B" row (VStr "Input") ;;
  ws <- set_value ws "C" row (VStr "Value") ;;
  ws <- set_value ws "D" row (VStr "Unit") ;;
  rw <- write_inputs inputs row ws ;;
  let row := (fst rw + 2)%Z in
  ws <- set_value (snd rw) "B" row (VStr "COST BREAKDOWN") ;;
  let row := (row + 1)%Z in
  ws <- set_value ws "B" row (VStr "Category") ;;
  ws <- set_value ws "C" row (VStr "$/W") ;;
  ws <- set_value ws "D" row (VStr "Total ($)") ;;
  rw <- write_costs (pricing_inputs inp) row ws ;;
  let row := (fst rw + 1)%Z in
  ws <- set_value (snd rw) "B" row (VStr "TOTAL PROJECT COST") ;;
  ws <- set_value ws "C" row (VFloat (total_per_watt inp)) ;;
  let ws := set_format ws "C" row "$0.00" in
  ws <- set_value ws "D" row (VFloat (total_cost inp)) ;;
  let ws := set_format ws "D" row currency_format in
  Ok (row, ws).

End InputsSheet.

(** Text that openpyxl stores as it is: at most 32767 printable ASCII
    characters. *)
Definition plain_character (c : ascii) : bool :=
  let n := N_of_ascii c in ((32 <=? n) && (n <=? 126))%N.

Definition plain_text (s : string) : bool :=
  (N.of_nat (String.length s) <=? 32767)%N
  && forallb plain_character (list_ascii_of_string s).

(** The cells that are assigned a value, in program order. *)
Definition value_addresses (ws : list Write) : list (string * Z) :=
  map address (filter is_value ws).

(** *** Auxiliary definitions for the proofs about the Inputs sheet *)

(** The writes of one pass of each loop, and of a whole loop. *)
Definition toggle_row_writes (e : string * string * string) (row : Z)
  : list Write :=
  let '(label, value, note) := e in
  [SetValue "B" row (VStr label); SetValue "C" row (VStr value)]
  ++ (if truthy note then [SetValue "E" row (VStr note)] else []).

Definition input_row_writes (e : string * PyVal * string) (row : Z)
  : list Write :=
  let '(label, value, unit_) := e in
  [SetValue "B" row (VStr label); SetValue "C" row value]
  ++ match inputs_number_format value with
     | Some f => [SetFormat "C" row f]
     | None => []
     end
  ++ [SetValue "D" row (VStr unit_)].

Definition cost_row_writes (inp : Inputs) (e : string * Q) (row : Z)
  : list Write :=
  let '(category, cost_per_w) := e in
  [SetValue "B" row (VStr category);
   SetValue "C" row (VFloat cost_per_w);
   SetFormat "C" row "$0.00";
   SetValue "D" row (VFloat (cost_per_w * system_size_w inp));
   SetFormat "D" row currency_format].

Fixpoint block_writes {A : Type} (row_writes : A -> Z -> list Write)
         (l : list A) (row : Z) : list Write :=
  match l with
  | [] => []
  | e :: rest =>
      row_writes e (row + 1)%Z ++ block_writes row_writes rest (row + 1)%Z
  end.

(** The writes before the loop over [inputs], and those after it. *)
Definition sheet_front (inp : Inputs) (format_pct1 : Q -> string)
  : list Write :=
  [SetValue "B" 1 (VStr (sheet_title inp));
   SetValue "B" 3 (VStr "TOGGLE SETTINGS");
   SetValue "B" 4 (VStr "Setting"); SetValue "C" 4 (VStr "Value");
   SetValue "D" 4 (VStr "Unit"); SetValue "E" 4 (VStr "Notes")]
  ++ block_writes toggle_row_writes (toggles inp format_pct1) 4
  ++ [SetValue "B" 10 (VStr "PROJECT INPUTS");
      SetValue "B" 11 (VStr "Input"); SetValue "C" 11 (VStr "Value");
      SetValue "D" 11 (VStr "Unit")].

Definition sheet_back (inp : Inputs) : list Write :=
  [SetValue "B" 22 (VStr "COST BREAKDOWN");
   SetValue "B" 23 (VStr "Category"); SetValue "C" 23 (VStr "$/W");
   SetValue "D" 23 (VStr "Total ($)")]
  ++ block_writes (cost_row_writes inp) (pricing_inputs inp) 23
  ++ [SetValue "B" 41 (VStr "TOTAL PROJECT COST");
      SetValue "C" 41 (VFloat (total_per_watt inp));
      SetFormat "C" 41 "$0.00";
      SetValue "D" 41 (VFloat (total_cost inp));
      SetFormat "D" 41 currency_format].

(** The writes of the whole sheet when no assignment fails. *)
Definition sheet_writes (inp : Inputs) (format_pct1 : Q -> string)
  : list Write :=
  sheet_front inp format_pct1
  ++ block_writes input_row_writes (inputs inp) 11
  ++ sheet_back inp.

(** Is the value one openpyxl stores as it is? *)
Definition plain_value (v : PyVal) : bool :=
  match v with
  | VStr s => plain_text s
  | _ => true
  end.

Definition toggle_plain (e : string * string * string) : bool :=
  plain_text (fst (fst e)) && plain_text (snd (fst e)) && plain_text (snd e).

Definition input_plain (e : string * PyVal * string) : bool :=
  plain_text (fst (fst e)) && plain_value (snd (fst e)) && plain_text (snd e).

Definition cost_plain (e : string * Q) : bool := plain_text (fst e).

Definition address_eqb (a b : string * Z) : bool :=
  (fst a =? fst b)%string && (snd a =? snd b)%Z.

Fixpoint distinctb (l : list (string * Z)) : bool :=
  match l with
  | [] => true
  | a :: rest => negb (existsb (address_eqb a) rest) && distinctb rest
  end.

(** ** The same script on binary64 floats

    The definitions above read the numbers of the script as exact
    rationals.  The script itself computes on IEEE 754 binary64 floats,
    and there an equality between two different computations of the same
    rational can fail in the last digit.  This module embeds the
    arithmetic of the script a second time, on the kernel's binary64
    floats: the form values and the decimal literals of the source are
    rounded to the nearest float, every operation rounds as Python's does,
    and [**] is the correctly rounded power.  It serves to evaluate the
    script on concrete form states. *)

Module Binary64.

Local Open Scope float_scope.

(** The float of an int; exact below 2^53. *)
Definition of_Z (z : Z) : float :=
  match z with
  | Z0 => 0
  | Zpos _ => of_uint63 (Uint63.of_Z z)
  | Zneg p => - of_uint63 (Uint63.of_Z (Zpos p))
  end.

(** The float a decimal numeral denotes: for a numerator and a
    denominator below 2^53 the quotient of their floats is the float
    nearest to the rational, which is how Python reads the numeral. *)
Definition fl (q : Q) : float := of_Z (Qnum q) / of_Z (Zpos (Qden q)).

(** [x ** n] for an int [n >= 0]: the float nearest to the exact power;
    a finite [x] whose power exceeds the float range raises
    [OverflowError].  Negative exponents do not occur in the script and
    are not modelled (they give [nan]). *)
Definition py_pow (x : float) (n : Z) : result float :=
  if (n =? 0)%Z then Ok 1
  else if (n <? 0)%Z then Ok nan
  else
    match Prim2SF x with
    | S754_finite s m e =>
        let mantissa := if s then Zneg m else Zpos m in
        let r := SF2Prim (binary_normalize prec emax (mantissa ^ n) (e * n) false) in
        if is_infinity r then Raise "OverflowError" else Ok r
    | _ => Ok x
    end.

(** [sum(xs)]: left to right from the int 0. *)
Definition py_sum (xs : list float) : float := fold_left add xs 0.

Record YearRecord : Type := mkYearRecord {
  year : Z;
  electric_rate_year : float;
  production : float;
  savings : float;
  srec_val : float;
  srecs : float;
  srec_income : float;
  tax_savings : float;
  total_benefit : float;
  cumulative : float
}.

Record Totals : Type := mkTotals {
  total_electric_savings : float;
  total_srec_income : float;
  total_tax_benefits : float;
  grand_total : float
}.

Section Script.

Variable inp : Inputs.

(** The numbers of the form, as floats. *)
Definition system_size_kw : float := fl (system_size_kw inp).
Definition electric_rate : float := fl (electric_rate inp).
Definition tax_bracket : float := fl (tax_bracket inp).
Definition degradation : float := fl (degradation inp).
Definition escalation_pct : float := fl (escalation_pct inp).

Definition system_size_w : float := system_size_kw * 1000.
Definition escalation : float := escalation_pct / 100.

Definition pricing_inputs : list (string * float) :=
  map (fun kv => (fst kv, fl (snd kv))) (pricing_inputs inp).

Definition total_per_watt : float := py_sum (map snd pricing_inputs).
Definition total_cost : float := total_per_watt * system_size_w.

Definition year1_production : float := system_size_kw * of_Z (tsrf inp).
Definition year1_savings : float := year1_production * electric_rate.

Definition srec_value : float :=
  if (jurisdiction inp =? "Maryland")%string then
    if (srec_program inp =? "Standard SREC")%string
    then 55 * fl 0.90
    else 55 * fl 0.90 * fl 1.5
  else 460 * fl 0.85.

Definition year1_srecs : float := year1_production / 1000.
Definition year1_srec_income : float := year1_srecs * srec_value.

Definition itc_amount : float :=
  if (itc_status inp =? "With ITC (30%)")%string
  then total_cost * fl 0.30
  else 0.

Definition depreciable_basis : float :=
  if (itc_status inp =? "With ITC (30%)")%string
  then total_cost * fl 0.85
  else total_cost.

Definition year1_depreciation : float := depreciable_basis.
Definition year1_depreciation_tax_savings : float :=
  year1_depreciation * tax_bracket.

Definition after_itc_cost : float := total_cost - itc_amount.

Definition srec_multiplier : float :=
  if (srec_program inp =? "Brighter Tomorrow SREC")%string
  then fl 1.5 else fl 1.0.
Definition srec_pct : float :=
  if (jurisdiction inp =? "Washington DC")%string then fl 0.85 else fl 0.90.

Definition year_row (cumulative : float) (year : Z) : result YearRecord :=
  escalated <- py_pow (1 + escalation) (year - 1) ;;
  let electric_rate_year := electric_rate * escalated in
  degraded <- py_pow (1 - degradation) (year - 1) ;;
  let production := year1_production * degraded in
  let savings := production * electric_rate_year in
  acp <- acp_for_year inp year ;;
  let srec_val := of_Z acp * srec_pct * srec_multiplier in
  let srecs := production / 1000 in
  let srec_income := srecs * srec_val in
  let tax_savings :=
    if (year =? 1)%Z then year1_depreciation_tax_savings else 0 in
  let total_benefit := savings + srec_income + tax_savings in
  let cumulative := cumulative + total_benefit in
  Ok (mkYearRecord year electric_rate_year production savings srec_val
                   srecs srec_income tax_savings total_benefit cumulative).

Fixpoint cash_flow_loop (years : list Z) (cumulative_ : float)
         (ws_cashflow : list YearRecord) : result (float * list YearRecord) :=
  match years with
  | [] => Ok (cumulative_, ws_cashflow)
  | year :: rest =>
      row <- year_row cumulative_ year ;;
      cash_flow_loop rest (cumulative row) (ws_cashflow ++ [row])
  end.

Definition cash_flow : result (float * list YearRecord) :=
  cash_flow_loop (py_range 1 26) (- after_itc_cost) [].

Definition electric_savings_term (y : Z) : result float :=
  escalated <- py_pow (1 + escalation) (y - 1) ;;
  degraded <- py_pow (1 - degradation) (y - 1) ;;
  Ok (year1_production * electric_rate * escalated * degraded).

Definition srec_income_term (y : Z) : result float :=
  degraded <- py_pow (1 - degradation) (y - 1) ;;
  v <- (if (y <=? len (acp_schedule inp))%Z
        then acp <- py_index (acp_schedule inp) (y - 1) ;;
             Ok (of_Z acp * srec_pct * srec_multiplier)
        else Ok 0) ;;
  Ok ((year1_production * degraded / 1000) * v).

Definition summary_totals : result Totals :=
  electric <- mapM electric_savings_term (py_range 1 26) ;;
  let total_electric_savings := py_sum electric in
  terms <- mapM srec_income_term (py_range 1 26) ;;
  let total_srec_income := py_sum terms in
  let grand_total :=
    total_electric_savings + total_srec_income
    + year1_depreciation_tax_savings in
  Ok (mkTotals total_electric_savings total_srec_income
               year1_depreciation_tax_savings grand_total).

End Script.

(** The column of the sheet a field of the rows fills, and its sum. *)
Definition column (f : YearRecord -> float) (inp : Inputs) : list float :=
  match cash_flow inp with
  | Ok (_, ws) => map f ws
  | Raise _ => []
  end.

(** The last cell of the Cumulative column. *)
Definition last_cumulative (inp : Inputs) : float :=
  last (column cumulative inp) nan.

Definition summary (f : Totals -> float) (inp : Inputs) : float :=
  match summary_totals inp with
  | Ok t => f t
  | Raise _ => nan
  end.

End Binary64.

(** * Properties *)

(** ** Python helpers *)

Lemma py_range_1_26 :
  py_range 1 26 =
  [1; 2; 3; 4; 5; 6; 7; 8; 9; 10; 11; 12; 13; 14; 15; 16; 17; 18; 19; 20;
   21; 22; 23; 24; 25]%Z.
Proof. reflexivity. Qed.

Lemma py_range_in_horizon : Forall in_horizon (py_range 1 26).
Proof.
  rewrite py_range_1_26. unfold in_horizon.
  repeat (constructor; [lia|]). constructor.
Qed.

Lemma py_range_nth_error (y : Z) :
  in_horizon y -> nth_error (py_range 1 26) (Z.to_nat (y - 1)) = Some y.
Proof.
  unfold in_horizon, py_range. intros Hy.
  rewrite nth_error_map.
  replace (Z.to_nat (26 - 1)) with 25%nat by reflexivity.
  rewrite nth_error_seq.
  assert (Hlt : (Z.to_nat (y - 1) < 25)%nat) by lia.
  apply Nat.ltb_lt in Hlt. rewrite Hlt. unfold option_map. f_equal. lia.
Qed.

Lemma fold_left_Qplus_acc (xs : list Q) (a : Q) :
  fold_left Qplus xs a == a + py_sum xs.
Proof.
  unfold py_sum. revert a.
  induction xs as [|x xs IH]; intros a; simpl.
  - ring.
  - rewrite (IH (a + x)), (IH (0 + x)). ring.
Qed.

Lemma py_sum_cons (x : Q) (xs : list Q) : py_sum (x :: xs) == x + py_sum xs.
Proof.
  unfold py_sum at 1. simpl. rewrite fold_left_Qplus_acc. ring.
Qed.

Lemma py_sum_nil : py_sum [] = 0.
Proof. reflexivity. Qed.

Lemma py_sum_Forall2 (xs ys : list Q) :
  Forall2 Qeq xs ys -> py_sum xs == py_sum ys.
Proof.
  induction 1 as [|x y xs ys Hxy _ IH].
  - reflexivity.
  - rewrite !py_sum_cons, Hxy, IH. reflexivity.
Qed.

Lemma py_index_in_range {A : Type} (xs : list A) (i : Z) (d : A) :
  (0 <= i < len xs)%Z -> py_index xs i = Ok (nth (Z.to_nat i) xs d).
Proof.
  unfold py_index, len. intros Hi.
  destruct (i <? 0)%Z eqn:Hneg; [lia|]. rewrite Hneg.
  assert (Hlt : (Z.to_nat i < List.length xs)%nat) by lia.
  rewrite (nth_error_nth' xs d Hlt). reflexivity.
Qed.

(** ** The ACP schedules *)

Lemma md_acp_length : List.length md_acp = 25%nat.
Proof. reflexivity. Qed.

Lemma dc_acp_length : List.length dc_acp = 25%nat.
Proof. reflexivity. Qed.

Lemma acp_schedule_cases (inp : Inputs) :
  acp_schedule inp = dc_acp \/ acp_schedule inp = md_acp.
Proof.
  unfold acp_schedule.
  destruct (jurisdiction inp =? "Washington DC")%string; auto.
Qed.

Lemma acp_schedule_len (inp : Inputs) : len (acp_schedule inp) = 25%Z.
Proof.
  unfold len.
  destruct (acp_schedule_cases inp) as [-> | ->]; reflexivity.
Qed.

Lemma acp_index_ok (inp : Inputs) (y : Z) :
  in_horizon y -> py_index (acp_schedule inp) (y - 1) = Ok (acp_at inp y).
Proof.
  unfold in_horizon, acp_at. intros Hy.
  apply py_index_in_range. rewrite acp_schedule_len. lia.
Qed.

Lemma acp_guard_true (inp : Inputs) (y : Z) :
  in_horizon y -> (y <=? len (acp_schedule inp))%Z = true.
Proof.
  unfold in_horizon. intros Hy. rewrite acp_schedule_len.
  apply Z.leb_le. lia.
Qed.

Lemma acp_for_year_ok (inp : Inputs) (y : Z) :
  in_horizon y -> acp_for_year inp y = Ok (acp_at inp y).
Proof.
  intros Hy. unfold acp_for_year.
  rewrite (acp_guard_true inp y Hy). apply acp_index_ok, Hy.
Qed.

(** ** The year loop *)

Lemma year_row_ok (inp : Inputs) (cum : Q) (y : Z) :
  in_horizon y -> year_row inp cum y = Ok (year_record inp cum y (acp_at inp y)).
Proof.
  intros Hy. unfold year_row. rewrite (acp_for_year_ok inp y Hy). reflexivity.
Qed.

Lemma last_cons {A : Type} (xs : list A) :
  forall a d : A, last (a :: xs) d = last xs a.
Proof.
  induction xs as [|b xs IH]; intros a d.
  - reflexivity.
  - change (last (a :: b :: xs) d) with (last (b :: xs) d).
    rewrite (IH b d), (IH b a). reflexivity.
Qed.

Lemma final_cumulative_cons (cum : Q) (r : YearRecord) (rows : list YearRecord) :
  final_cumulative cum (r :: rows) = final_cumulative (cumulative r) rows.
Proof.
  unfold final_cumulative. cbn [map]. apply last_cons.
Qed.

Lemma cash_flow_loop_ok (inp : Inputs) (years : list Z) :
  Forall in_horizon years ->
  forall (cum : Q) (ws : list YearRecord),
    cash_flow_loop inp years cum ws =
    Ok (final_cumulative cum (rows_from inp cum years),
        ws ++ rows_from inp cum years).
Proof.
  induction 1 as [|y years Hy _ IH]; intros cum ws.
  - simpl. rewrite app_nil_r. reflexivity.
  - cbn [cash_flow_loop rows_from].
    rewrite (year_row_ok inp cum y Hy). cbn [bind].
    rewrite IH, final_cumulative_cons, <- app_assoc. reflexivity.
Qed.

Lemma cash_flow_ok (inp : Inputs) :
  cash_flow inp =
  Ok (final_cumulative (- after_itc_cost inp)
        (rows_from inp (- after_itc_cost inp) (py_range 1 26)),
      rows_from inp (- after_itc_cost inp) (py_range 1 26)).
Proof.
  unfold cash_flow. rewrite (cash_flow_loop_ok inp _ py_range_in_horizon).
  reflexivity.
Qed.

Lemma rows_from_length (inp : Inputs) (years : list Z) (cum : Q) :
  List.length (rows_from inp cum years) = List.length years.
Proof.
  revert cum. induction years as [|y years IH]; intros cum; simpl.
  - reflexivity.
  - rewrite IH. reflexivity.
Qed.

(** Every row is the loop body run on its year and some running total. *)
Lemma rows_from_nth_error (inp : Inputs) (years : list Z) :
  forall (cum : Q) (i : nat) (y : Z),
    nth_error years i = Some y ->
    exists c, nth_error (rows_from inp cum years) i =
              Some (year_record inp c y (acp_at inp y)).
Proof.
  induction years as [|y0 years IH]; intros cum i y Hi.
  - destruct i; discriminate.
  - destruct i as [|i]; simpl in Hi.
    + injection Hi as ->. exists cum. reflexivity.
    + cbn [rows_from nth_error]. eapply IH, Hi.
Qed.

Lemma rows_from_inv (inp : Inputs) (years : list Z) :
  forall (cum : Q) (i : nat) (r : YearRecord),
    nth_error (rows_from inp cum years) i = Some r ->
    exists c y, nth_error years i = Some y /\
                r = year_record inp c y (acp_at inp y).
Proof.
  induction years as [|y0 years IH]; intros cum i r Hi.
  - destruct i; discriminate.
  - destruct i as [|i]; cbn [rows_from nth_error] in Hi.
    + injection Hi as <-. exists cum, y0. split; reflexivity.
    + cbn [nth_error]. eapply IH, Hi.
Qed.

(** The first row starts from the initial total, every later row from the
    total of the row above it. *)
Lemma rows_from_first (inp : Inputs) (years : list Z) (cum : Q) (y : Z) :
  nth_error years 0 = Some y ->
  nth_error (rows_from inp cum years) 0 =
  Some (year_record inp cum y (acp_at inp y)).
Proof.
  destruct years as [|y0 years]; simpl; [discriminate|].
  intros H. injection H as ->. reflexivity.
Qed.

Lemma rows_from_next (inp : Inputs) (years : list Z) :
  forall (cum : Q) (i : nat) (prev : YearRecord) (y : Z),
    nth_error (rows_from inp cum years) i = Some prev ->
    nth_error years (S i) = Some y ->
    nth_error (rows_from inp cum years) (S i) =
    Some (year_record inp (cumulative prev) y (acp_at inp y)).
Proof.
  induction years as [|y0 years IH]; intros cum i prev y Hprev Hy.
  - destruct i; discriminate.
  - destruct i as [|i].
    + cbn [rows_from nth_error] in Hprev. injection Hprev as <-.
      cbn [rows_from nth_error]. apply rows_from_first. exact Hy.
    + cbn [rows_from nth_error] in Hprev |- *.
      apply (IH _ i prev y Hprev). exact Hy.
Qed.

Lemma year_record_total_benefit (inp : Inputs) (c : Q) (y a : Z) :
  let r := year_record inp c y a in
  total_benefit r = savings r + srec_income r + tax_savings r.
Proof. reflexivity. Qed.

Lemma year_record_cumulative (inp : Inputs) (c : Q) (y a : Z) :
  cumulative (year_record inp c y a) =
  c + total_benefit (year_record inp c y a).
Proof. reflexivity. Qed.

Lemma final_cumulative_last_row (rows : list YearRecord) :
  forall (c : Q) (n : nat) (r : YearRecord),
    List.length rows = S n ->
    nth_error rows n = Some r ->
    final_cumulative c rows = cumulative r.
Proof.
  induction rows as [|a rows IH]; intros c n r Hlen Hn.
  - discriminate.
  - rewrite final_cumulative_cons.
    destruct n as [|n]; simpl in Hlen, Hn.
    + injection Hn as <-. destruct rows; [reflexivity | discriminate].
    + apply (IH _ n); [lia | exact Hn].
Qed.

(** ** Cash-flow projector: escalation and degradation *)

(** C1. The projector returns normally, and for every year [y] in 1..25
    the row of year [y] carries the electric rate
    [electric_rate * (1 + escalation) ^ (y - 1)] and the production
    [year1_production * (1 - degradation) ^ (y - 1)]; the row of year 1
    carries the base rate itself and the full year-1 production
    [system_size_kw * tsrf]. *)
Theorem projector_rate_and_production (inp : Inputs) :
  exists (cum : Q) (ws : list YearRecord),
    cash_flow inp = Ok (cum, ws) /\
    (forall y : Z,
        (1 <= y <= 25)%Z ->
        exists r : YearRecord,
          nth_error ws (Z.to_nat (y - 1)) = Some r /\
          year r = y /\
          electric_rate_year r =
            electric_rate inp * (1 + escalation inp) ^ (y - 1) /\
          production r =
            year1_production inp * (1 - degradation inp) ^ (y - 1)) /\
    (exists r1 : YearRecord,
        nth_error ws 0 = Some r1 /\
        year r1 = 1%Z /\
        electric_rate_year r1 == electric_rate inp /\
        production r1 == system_size_kw inp * inject_Z (tsrf inp)).
Proof.
  eexists _, _. split; [apply cash_flow_ok|]. split.
  - intros y Hy.
    destruct (rows_from_nth_error inp (py_range 1 26) (- after_itc_cost inp)
                _ y (py_range_nth_error y Hy)) as [c Hr].
    eexists. split; [exact Hr|]. repeat split.
  - exists (year_record inp (- after_itc_cost inp) 1 (acp_at inp 1)).
    split; [reflexivity|]. split; [reflexivity|].
    cbn [electric_rate_year production year_record].
    unfold year1_production. change (1 - 1)%Z with 0%Z.
    rewrite !Qpower_0_r. split; ring.
Qed.

(** Year 5 of the default project: four years of escalation and of degradation. *)
Lemma projector_rate_and_production_year5 :
  exists (cum : Q) (ws : list YearRecord),
    cash_flow default_inputs = Ok (cum, ws) /\
    exists r : YearRecord,
      nth_error ws 4 = Some r /\
      year r = 5%Z /\
      electric_rate_year r = 0.135 * (1 + 3.5 / 100) ^ 4 /\
      production r = 236.6 * inject_Z 1250 * (1 - 0.005) ^ 4.
Proof.
  destruct (projector_rate_and_production default_inputs)
    as (cum & ws & Hrun & Hrows & _).
  exists cum, ws. split; [exact Hrun|].
  apply (Hrows 5%Z). lia.
Defined.

(** ** Cash-flow projector: SREC unit value *)

Lemma horizon_forall (P : Z -> Prop) :
  Forall P (py_range 1 26) -> forall y : Z, in_horizon y -> P y.
Proof.
  intros HP y Hy. rewrite Forall_forall in HP. apply HP.
  eapply nth_error_In, py_range_nth_error, Hy.
Qed.

Lemma jurisdiction_of_string_inv (s : string) (j : Jurisdiction) :
  jurisdiction_of_string s = Some j ->
  match j with
  | Maryland => s = "Maryland"%string
  | WashingtonDC => s = "Washington DC"%string
  end.
Proof.
  unfold jurisdiction_of_string.
  destruct (s =? "Maryland")%string eqn:Hmd.
  - intros H. injection H as <-. apply String.eqb_eq, Hmd.
  - destruct (s =? "Washington DC")%string eqn:Hdc; [|discriminate].
    intros H. injection H as <-. apply String.eqb_eq, Hdc.
Qed.

Lemma acp_at_spec (inp : Inputs) (j : Jurisdiction) (y : Z) :
  jurisdiction_of_string (jurisdiction inp) = Some j ->
  in_horizon y ->
  acp_at inp y = spec_acp j y.
Proof.
  intros Hj. apply jurisdiction_of_string_inv in Hj.
  unfold acp_at, acp_schedule. revert y. apply horizon_forall.
  destruct j; rewrite Hj, py_range_1_26;
    repeat (constructor; [reflexivity|]); constructor.
Qed.

Lemma srec_pct_spec (inp : Inputs) (j : Jurisdiction) :
  jurisdiction_of_string (jurisdiction inp) = Some j ->
  srec_pct inp = spec_availability j.
Proof.
  intros Hj. apply jurisdiction_of_string_inv in Hj.
  unfold srec_pct. destruct j; rewrite Hj; reflexivity.
Qed.

Lemma srec_multiplier_spec (inp : Inputs) :
  srec_multiplier inp == spec_enhanced_multiplier (srec_program inp).
Proof.
  unfold srec_multiplier, spec_enhanced_multiplier.
  destruct (srec_program inp =? "Brighter Tomorrow SREC")%string; reflexivity.
Qed.

(** C2. For every year [y] in 1..25 the SREC unit value of the row equals
    ACP of the year times availability factor times enhanced multiplier,
    where the ACP and the factor are the ones the specification lists for
    the jurisdiction (Maryland: nine explicit years then 0, factor 0.90;
    Washington DC: seventeen explicit years then 100, factor 0.85) and the
    multiplier is 1.5 exactly when the program is "Brighter Tomorrow
    SREC". *)
Theorem projector_srec_unit_value (inp : Inputs) (j : Jurisdiction) :
  jurisdiction_of_string (jurisdiction inp) = Some j ->
  exists (cum : Q) (ws : list YearRecord),
    cash_flow inp = Ok (cum, ws) /\
    forall y : Z,
      (1 <= y <= 25)%Z ->
      exists r : YearRecord,
        nth_error ws (Z.to_nat (y - 1)) = Some r /\
        year r = y /\
        srec_val r ==
          inject_Z (spec_acp j y) * spec_availability j
          * spec_enhanced_multiplier (srec_program inp).
Proof.
  intros Hj.
  eexists _, _. split; [apply cash_flow_ok|].
  intros y Hy.
  destruct (rows_from_nth_error inp (py_range 1 26) (- after_itc_cost inp)
              _ y (py_range_nth_error y Hy)) as [c Hr].
  eexists. split; [exact Hr|]. split; [reflexivity|].
  cbn [srec_val year_record].
  rewrite (acp_at_spec inp j y Hj Hy), (srec_pct_spec inp j Hj).
  rewrite srec_multiplier_spec. reflexivity.
Qed.

(** Year 18 in Washington DC is priced at the floor of 100, not at 0. *)
Lemma projector_srec_unit_value_dc_year18 :
  exists (cum : Q) (ws : list YearRecord),
    cash_flow dc_inputs = Ok (cum, ws) /\
    exists r : YearRecord,
      nth_error ws 17 = Some r /\
      year r = 18%Z /\
      srec_val r == 100 * 0.85 * 1.
Proof.
  destruct (projector_srec_unit_value dc_inputs WashingtonDC eq_refl)
    as (cum & ws & Hrun & Hrows).
  exists cum, ws. split; [exact Hrun|].
  apply (Hrows 18%Z). lia.
Defined.

(** ** Cash-flow projector: the running cumulative benefit *)

(** The running total is the left fold of the additions the loop makes. *)
Lemma final_cumulative_fold (inp : Inputs) (years : list Z) :
  forall cum : Q,
    final_cumulative cum (rows_from inp cum years) =
    fold_left Qplus (map total_benefit (rows_from inp cum years)) cum.
Proof.
  induction years as [|y years IH]; intros cum.
  - reflexivity.
  - cbn [rows_from map fold_left]. rewrite final_cumulative_cons, IH.
    rewrite year_record_cumulative. reflexivity.
Qed.

(** C3. The loop starts from [- after_itc_cost]: the cumulative benefit of
    year 1 is [- after_itc_cost] plus the total benefit of year 1, and for
    every later year up to 25 it is the cumulative benefit of the year
    before plus the total benefit of the year, the total benefit being
    electric savings plus SREC income plus tax savings.  Consequently the
    cumulative benefit of year 25, which is also the running total the
    loop ends with, is [- after_itc_cost] with the total benefits of the
    25 rows added to it one after another in year order. *)
Theorem cumulative_benefit_recurrence (inp : Inputs) :
  exists (cum : Q) (ws : list YearRecord),
    cash_flow inp = Ok (cum, ws) /\
    List.length ws = 25%nat /\
    (forall r : YearRecord,
        In r ws ->
        total_benefit r = savings r + srec_income r + tax_savings r) /\
    (exists r1 : YearRecord,
        nth_error ws 0 = Some r1 /\
        cumulative r1 = - after_itc_cost inp + total_benefit r1) /\
    (forall y : Z,
        (2 <= y <= 25)%Z ->
        exists prev r : YearRecord,
          nth_error ws (Z.to_nat (y - 2)) = Some prev /\
          nth_error ws (Z.to_nat (y - 1)) = Some r /\
          year prev = (y - 1)%Z /\
          year r = y /\
          cumulative r = cumulative prev + total_benefit r) /\
    (exists r25 : YearRecord,
        nth_error ws 24 = Some r25 /\
        cum = cumulative r25 /\
        cumulative r25 =
          fold_left Qplus (map total_benefit ws) (- after_itc_cost inp)).
Proof.
  set (c0 := - after_itc_cost inp).
  set (ws := rows_from inp c0 (py_range 1 26)).
  assert (Hlen : List.length ws = 25%nat)
    by (unfold ws; rewrite rows_from_length; reflexivity).
  exists (final_cumulative c0 ws), ws.
  split; [apply cash_flow_ok|]. split; [exact Hlen|]. split; [|split; [|split]].
  - intros r Hin. apply In_nth_error in Hin as [i Hi].
    apply rows_from_inv in Hi as (c & y & _ & ->). reflexivity.
  - eexists. split; [apply rows_from_first; reflexivity|].
    apply year_record_cumulative.
  - intros y Hy.
    assert (Hprev : in_horizon (y - 1)) by (unfold in_horizon; lia).
    assert (Hcur : in_horizon y) by (unfold in_horizon; lia).
    destruct (rows_from_nth_error inp (py_range 1 26) c0 _ _
                (py_range_nth_error _ Hprev)) as [c Hp].
    replace (Z.to_nat (y - 1 - 1)) with (Z.to_nat (y - 2)) in Hp by lia.
    pose proof (py_range_nth_error y Hcur) as Hyth.
    replace (Z.to_nat (y - 1)) with (S (Z.to_nat (y - 2))) in Hyth |- * by lia.
    eexists _, _. split; [exact Hp|].
    split; [apply (rows_from_next inp _ c0 _ _ y Hp Hyth)|].
    split; [reflexivity|]. split; [reflexivity|].
    apply year_record_cumulative.
  - destruct (nth_error ws 24) as [r25|] eqn:H25.
    + exists r25. split; [reflexivity|].
      assert (Hfin : final_cumulative c0 ws = cumulative r25)
        by (apply (final_cumulative_last_row ws c0 24 r25 Hlen H25)).
      split; [exact Hfin|].
      rewrite <- Hfin. apply final_cumulative_fold.
    + apply nth_error_None in H25. lia.
Qed.

(** The step from year 1 to year 2 of the default project. *)
Lemma cumulative_benefit_recurrence_year2 :
  exists (cum : Q) (ws : list YearRecord),
    cash_flow default_inputs = Ok (cum, ws) /\
    exists prev r : YearRecord,
      nth_error ws 0 = Some prev /\
      nth_error ws 1 = Some r /\
      year prev = 1%Z /\
      year r = 2%Z /\
      cumulative r = cumulative prev + total_benefit r.
Proof.
  destruct (cumulative_benefit_recurrence default_inputs)
    as (cum & ws & Hrun & _ & _ & _ & Hstep & _).
  exists cum, ws. split; [exact Hrun|].
  apply (Hstep 2%Z). lia.
Defined.

(** C3, as the specification states it, fails on floats: on the default
    form the last cell of the Cumulative column, reached by adding the 25
    total benefits one by one to [- after_itc_cost], is
    1385166.5694521896, while [-after_itc_cost + sum(total_benefit)], with
    the benefits summed first, is 1385166.5694521898. *)
Lemma cumulative_year25_is_not_the_python_sum :
  valid_inputs default_inputs /\
  List.length (Binary64.column Binary64.cumulative default_inputs) = 25%nat /\
  Binary64.last_cumulative default_inputs = 1385166.5694521896%float /\
  (- Binary64.after_itc_cost default_inputs
   + Binary64.py_sum
       (Binary64.column Binary64.total_benefit default_inputs))%float
  = 1385166.5694521898%float /\
  PrimFloat.eqb
    (Binary64.last_cumulative default_inputs)
    (- Binary64.after_itc_cost default_inputs
     + Binary64.py_sum
         (Binary64.column Binary64.total_benefit default_inputs))%float
  = false.
Proof.
  do 4 (split; [vm_compute; reflexivity|]). vm_compute. reflexivity.
Qed.

(** ** Year-1 row against the live-preview metrics *)

Lemma memb_two (s a b : string) :
  memb s [a; b] = true -> s = a \/ s = b.
Proof.
  unfold memb. simpl. rewrite !orb_true_iff, !String.eqb_eq.
  intros [H | [H | H]]; [auto | auto | discriminate].
Qed.

Lemma valid_inputs_selects (inp : Inputs) :
  valid_inputs inp ->
  (jurisdiction inp = "Maryland"%string \/
   jurisdiction inp = "Washington DC"%string) /\
  (md_srec_program inp = "Standard SREC"%string \/
   md_srec_program inp = "Brighter Tomorrow SREC"%string).
Proof.
  unfold valid_inputs, widgets_ok. rewrite !andb_true_iff.
  intros H. decompose [and] H. split; apply memb_two; assumption.
Qed.

Lemma year_record_savings (inp : Inputs) (c : Q) (y a : Z) :
  let r := year_record inp c y a in
  savings r = production r * electric_rate_year r.
Proof. reflexivity. Qed.

Lemma year_record_srecs (inp : Inputs) (c : Q) (y a : Z) :
  let r := year_record inp c y a in srecs r = production r / 1000.
Proof. reflexivity. Qed.

Lemma year_record_srec_income (inp : Inputs) (c : Q) (y a : Z) :
  let r := year_record inp c y a in srec_income r = srecs r * srec_val r.
Proof. reflexivity. Qed.

Lemma year1_srec_val (inp : Inputs) (c : Q) :
  valid_inputs inp ->
  srec_val (year_record inp c 1 (acp_at inp 1)) == srec_value inp.
Proof.
  intros Hv. destruct (valid_inputs_selects inp Hv) as [Hj Hp].
  cbn [srec_val year_record].
  unfold acp_at, acp_schedule, srec_pct, srec_multiplier, srec_value,
    srec_program.
  destruct Hj as [-> | ->]; eval_string_tests; cbv iota.
  - destruct Hp as [-> | ->]; eval_string_tests; cbv iota; reflexivity.
  - reflexivity.
Qed.

(** C4. For every input the widgets can produce, the year-1 row of the
    cash-flow sheet agrees with the live-preview year-1 metrics: electric
    rate, production, electric savings, SREC unit value, SREC count and
    SREC income (and with them tax savings and total benefit). *)
Theorem year1_row_matches_metrics (inp : Inputs) :
  valid_inputs inp ->
  exists (cum : Q) (ws : list YearRecord) (r1 : YearRecord),
    cash_flow inp = Ok (cum, ws) /\
    nth_error ws 0 = Some r1 /\
    year r1 = 1%Z /\
    electric_rate_year r1 == electric_rate inp /\
    production r1 == year1_production inp /\
    savings r1 == year1_savings inp /\
    srec_val r1 == srec_value inp /\
    srecs r1 == year1_srecs inp /\
    srec_income r1 == year1_srec_income inp /\
    tax_savings r1 = year1_depreciation_tax_savings inp /\
    total_benefit r1 == year1_total_benefit inp.
Proof.
  intros Hv.
  set (r1 := year_record inp (- after_itc_cost inp) 1 (acp_at inp 1)).
  assert (Hrate : electric_rate_year r1 == electric_rate inp).
  { cbn [r1 electric_rate_year year_record]. change (1 - 1)%Z with 0%Z.
    rewrite Qpower_0_r. ring. }
  assert (Hprod : production r1 == year1_production inp).
  { cbn [r1 production year_record]. change (1 - 1)%Z with 0%Z.
    rewrite Qpower_0_r. ring. }
  assert (Hsav : savings r1 == year1_savings inp).
  { unfold r1. rewrite year_record_savings. fold r1.
    rewrite Hrate, Hprod. reflexivity. }
  assert (Hval : srec_val r1 == srec_value inp)
    by (apply year1_srec_val, Hv).
  assert (Hcnt : srecs r1 == year1_srecs inp).
  { unfold r1. rewrite year_record_srecs. fold r1.
    rewrite Hprod. reflexivity. }
  assert (Hinc : srec_income r1 == year1_srec_income inp).
  { unfold r1. rewrite year_record_srec_income. fold r1.
    rewrite Hcnt, Hval. reflexivity. }
  assert (Htax : tax_savings r1 = year1_depreciation_tax_savings inp)
    by reflexivity.
  exists (final_cumulative (- after_itc_cost inp)
            (rows_from inp (- after_itc_cost inp) (py_range 1 26))),
    (rows_from inp (- after_itc_cost inp) (py_range 1 26)), r1.
  split; [apply cash_flow_ok|]. split; [reflexivity|]. split; [reflexivity|].
  repeat (split; [assumption|]).
  unfold r1. rewrite year_record_total_benefit. fold r1.
  rewrite Hsav, Hinc, Htax. reflexivity.
Qed.

(** The default project: 236.6 kW at a TSRF of 1250 and 0.135 $/kWh in
    Maryland with standard SRECs. *)
Lemma year1_row_matches_metrics_default :
  valid_inputs default_inputs /\
  exists (cum : Q) (ws : list YearRecord) (r1 : YearRecord),
    cash_flow default_inputs = Ok (cum, ws) /\
    nth_error ws 0 = Some r1 /\
    year r1 = 1%Z /\
    electric_rate_year r1 == 0.135 /\
    production r1 == 295750 /\
    savings r1 == 39926.25 /\
    srec_val r1 == 49.5 /\
    srecs r1 == 295.75 /\
    srec_income r1 == 14639.625 /\
    tax_savings r1 = year1_depreciation_tax_savings default_inputs /\
    total_benefit r1 == year1_total_benefit default_inputs.
Proof.
  assert (Hv : valid_inputs default_inputs) by reflexivity.
  split; [exact Hv|].
  destruct (year1_row_matches_metrics default_inputs Hv)
    as (cum & ws & r1 & Hrun & Hnth & Hyear & Hrate & Hprod & Hsav & Hval
        & Hcnt & Hinc & Htax & Htot).
  exists cum, ws, r1.
  split; [exact Hrun|]. split; [exact Hnth|]. split; [exact Hyear|].
  split; [rewrite Hrate; reflexivity|].
  split; [rewrite Hprod; reflexivity|].
  split; [rewrite Hsav; reflexivity|].
  split; [rewrite Hval; reflexivity|].
  split; [rewrite Hcnt; reflexivity|].
  split; [rewrite Hinc; reflexivity|].
  split; assumption.
Defined.

(** ** Client-summary totals against the cash-flow rows *)

Lemma srec_income_term_ok (inp : Inputs) (c : Q) (y : Z) :
  in_horizon y ->
  srec_income_term inp y =
  Ok (srec_income (year_record inp c y (acp_at inp y))).
Proof.
  intros Hy. unfold srec_income_term.
  rewrite (acp_guard_true inp y Hy), (acp_index_ok inp y Hy). reflexivity.
Qed.

Lemma srec_income_terms (inp : Inputs) (years : list Z) :
  Forall in_horizon years ->
  forall cum : Q,
    mapM (srec_income_term inp) years =
    Ok (map srec_income (rows_from inp cum years)).
Proof.
  induction 1 as [|y years Hy _ IH]; intros cum; cbn [mapM rows_from map].
  - reflexivity.
  - rewrite (srec_income_term_ok inp cum y Hy). cbn [bind].
    rewrite (IH (cumulative (year_record inp cum y (acp_at inp y)))).
    reflexivity.
Qed.

Lemma tax_savings_later_years (inp : Inputs) (years : list Z) :
  Forall (fun y => y <> 1%Z) years ->
  forall cum : Q, py_sum (map tax_savings (rows_from inp cum years)) == 0.
Proof.
  induction 1 as [|y years Hy _ IH]; intros cum; cbn [rows_from map].
  - reflexivity.
  - rewrite py_sum_cons, IH. cbn [tax_savings year_record].
    apply Z.eqb_neq in Hy. rewrite Hy. ring.
Qed.

Lemma tax_savings_sum (inp : Inputs) (cum : Q) :
  py_sum (map tax_savings (rows_from inp cum (py_range 1 26))) ==
  year1_depreciation_tax_savings inp.
Proof.
  rewrite py_range_1_26.
  match goal with
  | |- context [rows_from inp cum (_ :: ?later)] =>
      assert (Hlater : Forall (fun y => y <> 1%Z) later)
        by (repeat (constructor; [discriminate|]); constructor)
  end.
  cbn [rows_from map].
  rewrite py_sum_cons, (tax_savings_later_years inp _ Hlater).
  cbn [tax_savings year_record]. change (1 =? 1)%Z with true. cbv iota. ring.
Qed.

(** C5. Generation returns normally, and of the 25-year totals of the
    client summary, computed by closed-form expressions of their own:
    total SREC income is the sum of the rows' SREC income and total tax
    benefits the sum of the rows' tax savings; total electric savings is
    the sum over the years 1..25 of
    [year1_production * electric_rate * (1 + escalation) ^ (y - 1)
     * (1 - degradation) ^ (y - 1)],
    the four factors of the electric savings of the row of year [y]
    (production times electric rate) multiplied in another order; and the
    grand total is the sum of the three totals. *)
Theorem summary_totals_match_rows (inp : Inputs) :
  exists (cum : Q) (ws : list YearRecord) (t : Totals),
    cash_flow inp = Ok (cum, ws) /\
    summary_totals inp = Ok t /\
    List.length ws = 25%nat /\
    total_srec_income t = py_sum (map srec_income ws) /\
    total_tax_benefits t == py_sum (map tax_savings ws) /\
    (exists terms : list Q,
        total_electric_savings t = py_sum terms /\
        List.length terms = 25%nat /\
        forall y : Z,
          (1 <= y <= 25)%Z ->
          exists (r : YearRecord) (escalated degraded : Q),
            nth_error ws (Z.to_nat (y - 1)) = Some r /\
            nth_error terms (Z.to_nat (y - 1)) =
              Some (year1_production inp * electric_rate inp * escalated
                    * degraded) /\
            electric_rate_year r = electric_rate inp * escalated /\
            production r = year1_production inp * degraded /\
            savings r = production r * electric_rate_year r) /\
    grand_total t =
      total_electric_savings t + total_srec_income t + total_tax_benefits t.
Proof.
  set (c0 := - after_itc_cost inp).
  set (ws := rows_from inp c0 (py_range 1 26)).
  assert (Htax : year1_depreciation_tax_savings inp ==
                 py_sum (map tax_savings ws))
    by (symmetry; apply tax_savings_sum).
  eexists _, ws, _. split; [apply cash_flow_ok|]. split.
  { unfold summary_totals.
    rewrite (srec_income_terms inp _ py_range_in_horizon c0).
    cbn [bind]. reflexivity. }
  cbn [total_electric_savings total_srec_income total_tax_benefits grand_total].
  fold ws.
  split; [unfold ws; rewrite rows_from_length; reflexivity|].
  split; [reflexivity|]. split; [exact Htax|]. split; [|reflexivity].
  exists (map (electric_savings_term inp) (py_range 1 26)).
  split; [reflexivity|]. split; [reflexivity|].
  intros y Hy.
  destruct (rows_from_nth_error inp (py_range 1 26) c0
              _ y (py_range_nth_error y Hy)) as [c Hr].
  exists (year_record inp c y (acp_at inp y)),
    ((1 + escalation inp) ^ (y - 1)), ((1 - degradation inp) ^ (y - 1)).
  split; [exact Hr|]. split.
  - rewrite nth_error_map, (py_range_nth_error y Hy). reflexivity.
  - repeat split.
Qed.

(** Year 5 of the default project. *)
Lemma summary_totals_match_rows_year5 :
  exists (cum : Q) (ws : list YearRecord) (t : Totals),
    cash_flow default_inputs = Ok (cum, ws) /\
    summary_totals default_inputs = Ok t /\
    exists terms : list Q,
      total_electric_savings t = py_sum terms /\
      exists (r : YearRecord) (escalated degraded : Q),
        nth_error ws 4 = Some r /\
        nth_error terms 4 =
          Some (year1_production default_inputs
                * electric_rate default_inputs * escalated * degraded) /\
        electric_rate_year r = electric_rate default_inputs * escalated /\
        production r = year1_production default_inputs * degraded /\
        savings r = production r * electric_rate_year r.
Proof.
  destruct (summary_totals_match_rows default_inputs)
    as (cum & ws & t & Hrun & Hsum & _ & _ & _ & (terms & Htes & _ & Hterms) & _).
  exists cum, ws, t. split; [exact Hrun|]. split; [exact Hsum|].
  exists terms. split; [exact Htes|].
  apply (Hterms 5%Z). lia.
Defined.

(** C5, as the specification states it, fails on floats.  With a system
    of 1 kW and the other form defaults, total electric savings is
    6138.3841644018003 while the Electric Savings column sums to
    6138.3841644018012; on the Washington DC project the grand total is
    3222445.827167361 while the Total Benefit column sums to
    3222445.8271673596. *)
Lemma summary_totals_differ_from_column_sums :
  (valid_inputs (set_system_size 1 default_inputs) /\
   Binary64.summary Binary64.total_electric_savings
     (set_system_size 1 default_inputs) = 6138.3841644018003%float /\
   Binary64.py_sum
     (Binary64.column Binary64.savings (set_system_size 1 default_inputs))
   = 6138.3841644018012%float /\
   PrimFloat.eqb
     (Binary64.summary Binary64.total_electric_savings
        (set_system_size 1 default_inputs))
     (Binary64.py_sum
        (Binary64.column Binary64.savings (set_system_size 1 default_inputs)))
   = false) /\
  (valid_inputs dc_inputs /\
   Binary64.summary Binary64.grand_total dc_inputs
   = 3222445.827167361%float /\
   Binary64.py_sum (Binary64.column Binary64.total_benefit dc_inputs)
   = 3222445.8271673596%float /\
   PrimFloat.eqb
     (Binary64.summary Binary64.grand_total dc_inputs)
     (Binary64.py_sum (Binary64.column Binary64.total_benefit dc_inputs))
   = false).
Proof.
  split; do 3 (split; [vm_compute; reflexivity|]); vm_compute; reflexivity.
Qed.

(** ** Simple payback *)

Lemma Qgtb_true (a b : Q) : Qgtb a b = true <-> b < a.
Proof.
  unfold Qgtb. rewrite negb_true_iff, <- not_true_iff_false, Qle_bool_iff.
  split; [apply Qnot_le_lt | apply Qlt_not_le].
Qed.

Lemma Qgtb_false (a b : Q) : Qgtb a b = false <-> a <= b.
Proof.
  unfold Qgtb. rewrite negb_false_iff. apply Qle_bool_iff.
Qed.

Lemma py_truediv_nonzero (a b : Q) : ~ b == 0 -> py_truediv a b = Ok (a / b).
Proof.
  intros Hb. unfold py_truediv.
  destruct (Qeq_bool b 0) eqn:E; [|reflexivity].
  apply Qeq_bool_iff in E. contradiction.
Qed.

(** C6. With [d = year1_savings + year1_srec_income]: when [d > 0] the
    simple payback is [after_itc_cost / d]; when [d <= 0] it is the
    sentinel 0, returned without dividing; in no case does the division
    raise, so it is never carried out on a zero or negative divisor. *)
Theorem simple_payback_guarded (inp : Inputs) :
  (0 < year1_savings inp + year1_srec_income inp ->
   simple_payback inp =
   Ok (after_itc_cost inp / (year1_savings inp + year1_srec_income inp))) /\
  (year1_savings inp + year1_srec_income inp <= 0 ->
   simple_payback inp = Ok 0) /\
  (forall exn : string, simple_payback inp <> Raise exn) /\
  (forall p : Q,
      simple_payback inp = Ok p ->
      p = 0 \/ 0 < year1_savings inp + year1_srec_income inp).
Proof.
  unfold simple_payback.
  set (d := year1_savings inp + year1_srec_income inp).
  destruct (Qgtb d 0) eqn:Hg.
  - apply Qgtb_true in Hg.
    assert (Hnz : ~ d == 0) by (intros E; rewrite E in Hg; discriminate).
    rewrite (py_truediv_nonzero _ _ Hnz).
    repeat split; try discriminate; auto.
    intros Hle. exfalso. apply (Qlt_not_le _ _ Hg Hle).
  - apply Qgtb_false in Hg.
    repeat split; try discriminate; auto.
    + intros Hlt. exfalso. apply (Qlt_not_le _ _ Hlt Hg).
    + intros p Hp. injection Hp as <-. left. reflexivity.
Qed.

(** The default project has a positive divisor; a form state without any
    system has divisor 0 and gets the sentinel. *)
Lemma simple_payback_guarded_both_branches :
  (0 < year1_savings default_inputs + year1_srec_income default_inputs /\
   simple_payback default_inputs =
   Ok (after_itc_cost default_inputs /
       (year1_savings default_inputs + year1_srec_income default_inputs))) /\
  (year1_savings no_system_inputs + year1_srec_income no_system_inputs <= 0 /\
   simple_payback no_system_inputs = Ok 0).
Proof.
  assert (Hpos : 0 < year1_savings default_inputs
                     + year1_srec_income default_inputs) by reflexivity.
  assert (Hzero : year1_savings no_system_inputs
                  + year1_srec_income no_system_inputs <= 0)
    by (vm_compute; discriminate).
  split; split; try assumption.
  - apply (proj1 (simple_payback_guarded default_inputs) Hpos).
  - apply (proj1 (proj2 (simple_payback_guarded no_system_inputs)) Hzero).
Defined.

(** ** Pricing aggregator *)

(** C7. The total unit cost is the sum of the 17 unit costs of the pricing
    schedule, and the total cost is the total unit cost times the system
    size in kW times 1000; this holds for every system size, in
    particular for every positive one. *)
Theorem pricing_totals (inp : Inputs) :
  List.length (pricing_inputs inp) = 17%nat /\
  values (pricing_inputs inp) = pricing_values (pricing inp) /\
  total_per_watt inp ==
    modules_cost (pricing inp) + inverters_cost (pricing inp)
    + racking_cost (pricing inp) + ballast_cost (pricing inp)
    + electrical_cost (pricing inp) + other_materials_cost (pricing inp)
    + equipment_rental_cost (pricing inp)
    + roof_attachments_cost (pricing inp) + dumpsters_cost (pricing inp)
    + porta_john_cost (pricing inp) + safety_equipment_cost (pricing inp)
    + engineering_cost (pricing inp) + stamps_cost (pricing inp)
    + permits_cost (pricing inp) + meters_cost (pricing inp)
    + ix_fees_cost (pricing inp) + origination_cost (pricing inp) /\
  total_cost inp == total_per_watt inp * system_size_kw inp * 1000.
Proof.
  split; [reflexivity|]. split; [reflexivity|]. split.
  - unfold total_per_watt, py_sum, values, pricing_inputs.
    cbn [map snd fold_left]. ring.
  - unfold total_cost, system_size_w. ring.
Qed.

(** C9, as the code has it.  The pricing step checks nothing and raises
    nothing: on every input, whatever the signs of the unit costs and of
    the system size, it returns the two totals.  Negative costs and
    non-positive sizes are kept out by the bounds of the form widgets
    only: an input the widgets can produce has every unit cost in [0, 5]
    and a system size in [1, 10000]. *)
Theorem pricing_aggregator_never_raises (inp : Inputs) :
  pricing_aggregator inp = Ok (total_per_watt inp, total_cost inp) /\
  (valid_inputs inp ->
   Forall (fun c => 0 <= c /\ c <= 5) (pricing_values (pricing inp)) /\
   1 <= system_size_kw inp /\ system_size_kw inp <= 10000).
Proof.
  split; [reflexivity|].
  unfold valid_inputs, widgets_ok. rewrite !andb_true_iff.
  intros H. decompose [and] H. clear H. split.
  - match goal with
    | Hc : forallb _ _ = true |- _ =>
        rewrite forallb_forall in Hc; apply Forall_forall; intros c Hin;
        specialize (Hc c Hin); unfold within in Hc;
        apply andb_true_iff in Hc as [Hlo Hhi];
        apply Qle_bool_iff in Hlo, Hhi
    end.
    split; lra.
  - match goal with
    | Hs : within _ _ (system_size_kw inp) = true |- _ =>
        unfold within in Hs; apply andb_true_iff in Hs as [Hlo Hhi];
        apply Qle_bool_iff in Hlo, Hhi
    end.
    split; lra.
Qed.

(** The default form values are within the widget bounds. *)
Lemma pricing_aggregator_never_raises_default :
  valid_inputs default_inputs /\
  Forall (fun c => 0 <= c /\ c <= 5) (pricing_values (pricing default_inputs)) /\
  1 <= system_size_kw default_inputs /\
  system_size_kw default_inputs <= 10000.
Proof.
  assert (Hv : valid_inputs default_inputs) by reflexivity.
  split; [exact Hv|].
  apply (proj2 (pricing_aggregator_never_raises default_inputs) Hv).
Defined.

(** C9, as the specification states it, fails: with a unit cost of -1 $/W,
    and likewise with a system size of 0 kW, the pricing step returns
    totals instead of raising a [ValidationError]. *)
Lemma pricing_aggregator_accepts_bad_input :
  (modules_cost (pricing negative_cost_inputs) < 0 /\
   pricing_aggregator negative_cost_inputs <> Raise "ValidationError" /\
   exists tpw tc : Q,
     pricing_aggregator negative_cost_inputs = Ok (tpw, tc) /\
     tpw == -1 /\ tc == -236600) /\
  (system_size_kw no_system_inputs <= 0 /\
   pricing_aggregator no_system_inputs <> Raise "ValidationError" /\
   exists tpw tc : Q,
     pricing_aggregator no_system_inputs = Ok (tpw, tc) /\
     tpw == 1.15 /\ tc == 0).
Proof.
  split.
  - split; [reflexivity|]. split; [discriminate|].
    eexists _, _. split; [reflexivity|]. split; reflexivity.
  - split; [vm_compute; discriminate|]. split; [discriminate|].
    eexists _, _. split; [reflexivity|]. split; reflexivity.
Qed.

(** ** Incentive calculator *)

(** C8. With ITC ([itc_status] is "With ITC (30%)") the ITC amount is
    the total cost times 0.30, the depreciable basis the total cost times
    0.85, and the after-ITC cost the total cost less the total cost times
    0.30; without ITC the ITC amount is 0 and both the depreciable basis
    and the after-ITC cost are the total cost.  In both cases the year-1
    depreciation tax savings are the depreciable basis times the tax
    bracket. *)
Theorem incentive_amounts (inp : Inputs) :
  (itc_status inp = "With ITC (30%)"%string ->
   itc_amount inp = total_cost inp * 0.30 /\
   depreciable_basis inp = total_cost inp * 0.85 /\
   after_itc_cost inp = total_cost inp - total_cost inp * 0.30) /\
  (itc_status inp <> "With ITC (30%)"%string ->
   itc_amount inp = 0 /\
   depreciable_basis inp = total_cost inp /\
   after_itc_cost inp == total_cost inp) /\
  after_itc_cost inp = total_cost inp - itc_amount inp /\
  year1_depreciation_tax_savings inp =
    depreciable_basis inp * tax_bracket inp.
Proof.
  unfold year1_depreciation_tax_savings, year1_depreciation, after_itc_cost,
    itc_amount, depreciable_basis.
  destruct (itc_status inp =? "With ITC (30%)")%string eqn:Hitc.
  - apply String.eqb_eq in Hitc.
    split; [|split; [|split; reflexivity]].
    + intros _. repeat split.
    + intros Hno. contradiction.
  - apply String.eqb_neq in Hitc.
    split; [|split; [|split; reflexivity]].
    + intros Hyes. contradiction.
    + intros _. repeat split. ring.
Qed.

(** The default project with ITC, and the same project without. *)
Lemma incentive_amounts_both_branches :
  (itc_status default_inputs = "With ITC (30%)"%string /\
   itc_amount default_inputs = total_cost default_inputs * 0.30 /\
   depreciable_basis default_inputs = total_cost default_inputs * 0.85 /\
   after_itc_cost default_inputs =
     total_cost default_inputs - total_cost default_inputs * 0.30) /\
  (itc_status no_itc_inputs <> "With ITC (30%)"%string /\
   itc_amount no_itc_inputs = 0 /\
   depreciable_basis no_itc_inputs = total_cost no_itc_inputs /\
   after_itc_cost no_itc_inputs == total_cost no_itc_inputs).
Proof.
  assert (Hyes : itc_status default_inputs = "With ITC (30%)"%string)
    by reflexivity.
  assert (Hno : itc_status no_itc_inputs <> "With ITC (30%)"%string)
    by (vm_compute; discriminate).
  split; (split; [assumption|]).
  - apply (proj1 (incentive_amounts default_inputs) Hyes).
  - apply (proj1 (proj2 (incentive_amounts no_itc_inputs)) Hno).
Defined.

(** C8, as the specification states it, fails on floats: on the default
    form the total cost is 272090.00000000006 and the after-ITC cost,
    the total cost less the ITC amount, is 190463.00000000006, while the
    total cost times 0.70 is 190463.00000000003. *)
Lemma after_itc_cost_is_not_total_cost_times_070 :
  valid_inputs default_inputs /\
  itc_status default_inputs = "With ITC (30%)"%string /\
  Binary64.total_cost default_inputs = 272090.00000000006%float /\
  Binary64.after_itc_cost default_inputs = 190463.00000000006%float /\
  (Binary64.total_cost default_inputs * 0.70)%float
  = 190463.00000000003%float /\
  PrimFloat.eqb (Binary64.after_itc_cost default_inputs)
                (Binary64.total_cost default_inputs * 0.70)%float = false.
Proof.
  do 5 (split; [vm_compute; reflexivity|]). vm_compute. reflexivity.
Qed.

(** ** Bounds of the ACP lookup *)

(** C10. Both ACP schedules have exactly 25 entries.  Hence for every year
    [y] in 1..25, which are the years the loop and the totals run over,
    the guard [year <= len(acp_schedule)] holds, the index [y - 1] is
    within the schedule and the lookup returns the entry at that
    position without raising.  The fallback of the guard would apply to
    years beyond the schedule only, where it gives ACP 0 for either
    jurisdiction. *)
Theorem acp_lookup_in_bounds :
  List.length md_acp = 25%nat /\
  List.length dc_acp = 25%nat /\
  (forall y : Z, In y (py_range 1 26) -> (1 <= y <= 25)%Z) /\
  (forall (inp : Inputs) (y : Z),
      (1 <= y <= 25)%Z ->
      (y <=? len (acp_schedule inp))%Z = true /\
      (0 <= y - 1 < len (acp_schedule inp))%Z /\
      exists acp : Z,
        nth_error (acp_schedule inp) (Z.to_nat (y - 1)) = Some acp /\
        py_index (acp_schedule inp) (y - 1) = Ok acp /\
        acp_for_year inp y = Ok acp) /\
  (forall (inp : Inputs) (y : Z),
      (len (acp_schedule inp) < y)%Z -> acp_for_year inp y = Ok 0%Z).
Proof.
  split; [reflexivity|]. split; [reflexivity|]. split; [|split].
  - intros y Hin.
    apply (proj1 (Forall_forall _ _) py_range_in_horizon y Hin).
  - intros inp y Hy. split; [apply acp_guard_true, Hy|].
    split; [rewrite acp_schedule_len; lia|].
    exists (acp_at inp y).
    split; [|split; [apply acp_index_ok, Hy | apply acp_for_year_ok, Hy]].
    unfold acp_at. apply nth_error_nth'.
    pose proof (acp_schedule_len inp) as Hlen. unfold len in Hlen. lia.
  - intros inp y Hy. unfold acp_for_year.
    apply Z.leb_gt in Hy. rewrite Hy. reflexivity.
Qed.

(** The last year of the horizon reads the last entry of the schedule. *)
Lemma acp_lookup_in_bounds_dc_year25 :
  (1 <= 25 <= 25)%Z /\
  (25 <=? len (acp_schedule dc_inputs))%Z = true /\
  (0 <= 25 - 1 < len (acp_schedule dc_inputs))%Z /\
  exists acp : Z,
    nth_error (acp_schedule dc_inputs) (Z.to_nat (25 - 1)) = Some acp /\
    py_index (acp_schedule dc_inputs) (25 - 1) = Ok acp /\
    acp_for_year dc_inputs 25 = Ok acp.
Proof.
  assert (Hy : (1 <= 25 <= 25)%Z) by lia.
  split; [exact Hy|].
  apply (proj1 (proj2 (proj2 (proj2 acp_lookup_in_bounds))) dc_inputs 25%Z Hy).
Defined.

(** ** Worked examples, by evaluation *)

Example default_project_costs :
  total_per_watt default_inputs == 1.15 /\
  total_cost default_inputs == 272090 /\
  itc_amount default_inputs == 81627 /\
  after_itc_cost default_inputs == 190463.
Proof. repeat split. Qed.

Example maryland_year9_has_no_srec_value :
  option_Qeqb (sheet_srec_val default_inputs 9) 0 = true.
Proof. vm_compute. reflexivity. Qed.

Example dc_year18_uses_the_floor :
  option_Qeqb (sheet_srec_val dc_inputs 18) (100 * 0.85) = true.
Proof. vm_compute. reflexivity. Qed.

Example brighter_tomorrow_year1 :
  option_Qeqb (sheet_srec_val brighter_inputs 1) 74.25 = true /\
  srec_value brighter_inputs == 74.25.
Proof. split; [vm_compute; reflexivity | reflexivity]. Qed.

(** The agreement of the year-1 row with the live preview rests on the
    select boxes: the preview tests for "Maryland" and treats everything
    else as Washington DC, the sheet tests for "Washington DC" and treats
    everything else as Maryland.  A jurisdiction outside the two options
    would be priced at 460 * 0.85 in the preview and at 55 * 0.90 in the
    sheet. *)
Example preview_and_sheet_differ_outside_options :
  widgets_ok outside_options_inputs = false /\
  srec_value outside_options_inputs == 391 /\
  option_Qeqb (sheet_srec_val outside_options_inputs 1) 49.5 = true.
Proof.
  split; [reflexivity|]. split; [reflexivity|]. vm_compute. reflexivity.
Qed.

(** * Further properties of the script *)

(** ** Ranges of the values the widgets deliver *)

Lemma within_bounds (lo hi x : Q) :
  within lo hi x = true -> lo <= x /\ x <= hi.
Proof.
  unfold within. rewrite andb_true_iff, !Qle_bool_iff. auto.
Qed.

Lemma valid_inputs_ranges (inp : Inputs) :
  valid_inputs inp ->
  (1 <= system_size_kw inp /\ system_size_kw inp <= 10000) /\
  (0.05 <= electric_rate inp /\ electric_rate inp <= 0.50) /\
  (500 <= tsrf inp <= 2000)%Z /\
  (0 <= tax_bracket inp /\ tax_bracket inp <= 0.50) /\
  (0 <= degradation inp /\ degradation inp <= 0.02) /\
  (escalation_pct inp == 2.0 \/ escalation_pct inp == 3.5 \/
   escalation_pct inp == 5.0) /\
  Forall (fun c => 0 <= c /\ c <= 5) (pricing_values (pricing inp)).
Proof.
  unfold valid_inputs, widgets_ok. rewrite !andb_true_iff.
  intros H. decompose [and] H. clear H.
  repeat match goal with
         | Hw : within _ _ _ = true |- _ => apply within_bounds in Hw
         end.
  split; [lra|]. split; [lra|]. split; [lia|]. split; [lra|].
  split; [lra|]. split.
  - match goal with
    | He : existsb _ escalation_pct_options = true |- _ =>
        simpl in He; rewrite !orb_true_iff, !Qeq_bool_iff in He;
        destruct He as [He | [He | [He | He]]]; [auto | auto | auto | discriminate]
    end.
  - match goal with
    | Hc : forallb _ _ = true |- _ =>
        rewrite forallb_forall in Hc; apply Forall_forall; intros c Hin;
        specialize (Hc c Hin); apply within_bounds in Hc; lra
    end.
Qed.

Lemma total_per_watt_range (inp : Inputs) :
  valid_inputs inp -> 0 <= total_per_watt inp /\ total_per_watt inp <= 85.
Proof.
  intros Hv. destruct (valid_inputs_ranges inp Hv) as (_ & _ & _ & _ & _ & _ & Hc).
  unfold pricing_values in Hc.
  repeat match goal with
         | H : Forall _ (_ :: _) |- _ => inversion_clear H
         end.
  unfold total_per_watt, py_sum, values, pricing_inputs.
  cbn [map snd fold_left]. lra.
Qed.

Lemma total_cost_nonneg (inp : Inputs) :
  valid_inputs inp -> 0 <= total_cost inp.
Proof.
  intros Hv. destruct (total_per_watt_range inp Hv) as [Hlo _].
  destruct (valid_inputs_ranges inp Hv) as ((Hkw & _) & _).
  unfold total_cost, system_size_w.
  apply Qmult_le_0_compat; [exact Hlo | lra].
Qed.

Lemma year1_production_pos (inp : Inputs) :
  valid_inputs inp -> 500 <= year1_production inp.
Proof.
  intros Hv.
  destruct (valid_inputs_ranges inp Hv) as ((Hkw & _) & _ & (Ht & _) & _).
  assert (Hq : 500 <= inject_Z (tsrf inp)).
  { change 500 with (inject_Z 500). rewrite <- Zle_Qle. exact Ht. }
  unfold year1_production. nra.
Qed.

Lemma srec_value_cases (inp : Inputs) :
  valid_inputs inp ->
  srec_value inp == 49.5 \/ srec_value inp == 74.25 \/ srec_value inp == 391.
Proof.
  intros Hv. destruct (valid_inputs_selects inp Hv) as [Hj Hp].
  unfold srec_value, srec_program.
  destruct Hj as [-> | ->]; eval_string_tests; cbv iota.
  - destruct Hp as [-> | ->]; eval_string_tests; cbv iota.
    + left. reflexivity.
    + right. left. reflexivity.
  - right. right. reflexivity.
Qed.

Lemma escalation_range (inp : Inputs) :
  valid_inputs inp -> 0.02 <= escalation inp /\ escalation inp <= 0.05.
Proof.
  intros Hv.
  destruct (valid_inputs_ranges inp Hv) as (_ & _ & _ & _ & _ & He & _).
  unfold escalation. destruct He as [-> | [-> | ->]]; split; reflexivity || discriminate.
Qed.

Lemma after_itc_cost_split (inp : Inputs) :
  after_itc_cost inp + itc_amount inp == total_cost inp /\
  (itc_amount inp == total_cost inp * 0.30 \/ itc_amount inp == 0).
Proof.
  unfold after_itc_cost, itc_amount.
  destruct (itc_status inp =? "With ITC (30%)")%string; split;
    try ring; [left | right]; reflexivity.
Qed.

(** ** Incentives: the amounts stay within the total cost *)

(** X1. For inputs the widgets can produce the total cost is not negative,
    and the ITC amount, the after-ITC cost and the depreciable basis each
    lie between 0 and the total cost, with or without ITC; the year-1
    depreciation tax savings lie between 0 and half the total cost. *)
Theorem incentive_amounts_within_total_cost (inp : Inputs) :
  valid_inputs inp ->
  0 <= total_cost inp /\
  (0 <= itc_amount inp /\ itc_amount inp <= total_cost inp) /\
  (0 <= after_itc_cost inp /\ after_itc_cost inp <= total_cost inp) /\
  (0 <= depreciable_basis inp /\ depreciable_basis inp <= total_cost inp) /\
  (0 <= year1_depreciation_tax_savings inp /\
   year1_depreciation_tax_savings inp <= total_cost inp * 0.50).
Proof.
  intros Hv. pose proof (total_cost_nonneg inp Hv) as Htc.
  destruct (valid_inputs_ranges inp Hv) as (_ & _ & _ & (Ht0 & Ht1) & _).
  split; [exact Htc|].
  unfold year1_depreciation_tax_savings, year1_depreciation, after_itc_cost,
    depreciable_basis, itc_amount.
  destruct (itc_status inp =? "With ITC (30%)")%string;
    repeat split; try lra; try nra.
Qed.

(** The default project. *)
Lemma incentive_amounts_within_total_cost_default :
  valid_inputs default_inputs /\
  0 <= total_cost default_inputs /\
  (0 <= itc_amount default_inputs /\
   itc_amount default_inputs <= total_cost default_inputs) /\
  (0 <= after_itc_cost default_inputs /\
   after_itc_cost default_inputs <= total_cost default_inputs) /\
  (0 <= depreciable_basis default_inputs /\
   depreciable_basis default_inputs <= total_cost default_inputs) /\
  (0 <= year1_depreciation_tax_savings default_inputs /\
   year1_depreciation_tax_savings default_inputs
   <= total_cost default_inputs * 0.50).
Proof.
  assert (Hv : valid_inputs default_inputs) by reflexivity.
  split; [exact Hv|].
  apply (incentive_amounts_within_total_cost default_inputs Hv).
Defined.

(** ** Simple payback on inputs the widgets can produce *)

Lemma payback_divisor_pos (inp : Inputs) :
  valid_inputs inp -> 0 < year1_savings inp + year1_srec_income inp.
Proof.
  intros Hv. pose proof (year1_production_pos inp Hv) as Hp.
  destruct (valid_inputs_ranges inp Hv) as (_ & (Hr & _) & _).
  pose proof (srec_value_cases inp Hv) as Hs.
  unfold year1_savings, year1_srec_income, year1_srecs.
  assert (Hsv : 0 < srec_value inp)
    by (destruct Hs as [-> | [-> | ->]]; reflexivity).
  assert (H1 : 0 < year1_production inp * electric_rate inp) by nra.
  assert (H2 : 0 <= year1_production inp / 1000 * srec_value inp).
  { apply Qmult_le_0_compat; [|lra].
    apply Qle_shift_div_l; [reflexivity | lra]. }
  lra.
Qed.

(** X2. For inputs the widgets can produce the divisor of the simple payback,
    year-1 savings plus year-1 SREC income, is strictly positive: the
    sentinel branch is never taken, the payback is the quotient and it is
    not negative. *)
Theorem simple_payback_on_valid_inputs (inp : Inputs) :
  valid_inputs inp ->
  0 < year1_savings inp + year1_srec_income inp /\
  simple_payback inp =
    Ok (after_itc_cost inp / (year1_savings inp + year1_srec_income inp)) /\
  0 <= after_itc_cost inp / (year1_savings inp + year1_srec_income inp).
Proof.
  intros Hv. pose proof (payback_divisor_pos inp Hv) as Hd.
  split; [exact Hd|]. split.
  - unfold simple_payback.
    rewrite (proj2 (Qgtb_true _ 0) Hd).
    apply py_truediv_nonzero. intros E. rewrite E in Hd. discriminate.
  - apply Qle_shift_div_l; [exact Hd|].
    pose proof (total_cost_nonneg inp Hv) as Htc.
    destruct (after_itc_cost_split inp) as [Hsum [Hi | Hi]]; lra.
Qed.

(** The default project pays back in 1288/369 years, about 3.5. *)
Lemma simple_payback_on_valid_inputs_default :
  valid_inputs default_inputs /\
  0 < year1_savings default_inputs + year1_srec_income default_inputs /\
  simple_payback default_inputs =
    Ok (after_itc_cost default_inputs
        / (year1_savings default_inputs + year1_srec_income default_inputs)) /\
  0 <= after_itc_cost default_inputs
       / (year1_savings default_inputs + year1_srec_income default_inputs).
Proof.
  assert (Hv : valid_inputs default_inputs) by reflexivity.
  split; [exact Hv | apply (simple_payback_on_valid_inputs default_inputs Hv)].
Defined.

(** ** Year over year in the cash-flow sheet *)

(** Of the rational values: one more year is one more factor. *)
Lemma Qpower_next (a : Q) (y : Z) :
  (1 <= y)%Z -> a ^ (y + 1 - 1) == a ^ (y - 1) * a.
Proof.
  intros Hy. replace (y + 1 - 1)%Z with ((y - 1) + 1)%Z by lia.
  rewrite Qpower_plus' by lia. rewrite Qpower_1_r. reflexivity.
Qed.

(** A row of the sheet and the row below it. *)
Lemma sheet_rows_consecutive (inp : Inputs) (y : Z) :
  (1 <= y <= 24)%Z ->
  exists c : Q,
    nth_error (rows_from inp (- after_itc_cost inp) (py_range 1 26))
              (Z.to_nat (y - 1)) =
    Some (year_record inp c y (acp_at inp y)) /\
    nth_error (rows_from inp (- after_itc_cost inp) (py_range 1 26))
              (Z.to_nat y) =
    Some (year_record inp
            (cumulative (year_record inp c y (acp_at inp y)))
            (y + 1) (acp_at inp (y + 1))).
Proof.
  intros Hy.
  assert (Hcur : in_horizon y) by (unfold in_horizon; lia).
  assert (Hnext : in_horizon (y + 1)) by (unfold in_horizon; lia).
  destruct (rows_from_nth_error inp (py_range 1 26) (- after_itc_cost inp)
              _ y (py_range_nth_error y Hcur)) as [c Hr].
  exists c. split; [exact Hr|].
  pose proof (py_range_nth_error (y + 1) Hnext) as Hn.
  replace (Z.to_nat (y + 1 - 1)) with (S (Z.to_nat (y - 1))) in Hn by lia.
  replace (Z.to_nat y) with (S (Z.to_nat (y - 1))) by lia.
  apply (rows_from_next inp _ _ _ _ (y + 1)%Z Hr Hn).
Qed.

Lemma sheet_row_in_horizon (inp : Inputs) (r : YearRecord) :
  In r (rows_from inp (- after_itc_cost inp) (py_range 1 26)) ->
  exists (c : Q) (y : Z),
    in_horizon y /\ r = year_record inp c y (acp_at inp y).
Proof.
  intros Hin. apply In_nth_error in Hin as [i Hi].
  apply rows_from_inv in Hi as (c & y & Hy & ->).
  exists c, y. split; [|reflexivity].
  apply nth_error_In in Hy.
  apply (proj1 (Forall_forall _ _) py_range_in_horizon y Hy).
Qed.

Lemma production_pos (inp : Inputs) (c : Q) (y a : Z) :
  valid_inputs inp -> 0 < production (year_record inp c y a).
Proof.
  intros Hv. pose proof (year1_production_pos inp Hv) as Hp.
  destruct (valid_inputs_ranges inp Hv) as (_ & _ & _ & _ & (Hd0 & Hd1) & _).
  cbn [production year_record].
  assert (Hpow : 0 < (1 - degradation inp) ^ (y - 1))
    by (apply Qpower_0_lt; lra).
  nra.
Qed.

Lemma electric_rate_year_pos (inp : Inputs) (c : Q) (y a : Z) :
  valid_inputs inp -> 0 < electric_rate_year (year_record inp c y a).
Proof.
  intros Hv. pose proof (escalation_range inp Hv) as [He _].
  destruct (valid_inputs_ranges inp Hv) as (_ & (Hr & _) & _).
  cbn [electric_rate_year year_record].
  assert (Hpow : 0 < (1 + escalation inp) ^ (y - 1))
    by (apply Qpower_0_lt; lra).
  nra.
Qed.

(** X4. For inputs the widgets can produce, from each year to the next (years
    1 to 24) the production stays positive and does not grow, the SREC
    count does not grow, and the electric rate strictly rises. *)
Theorem production_and_rate_year_over_year (inp : Inputs) :
  valid_inputs inp ->
  exists (cum : Q) (ws : list YearRecord),
    cash_flow inp = Ok (cum, ws) /\
    forall y : Z,
      (1 <= y <= 24)%Z ->
      exists r r' : YearRecord,
        nth_error ws (Z.to_nat (y - 1)) = Some r /\
        nth_error ws (Z.to_nat y) = Some r' /\
        year r = y /\ year r' = (y + 1)%Z /\
        0 < production r' /\
        production r' <= production r /\
        srecs r' <= srecs r /\
        electric_rate_year r < electric_rate_year r'.
Proof.
  intros Hv.
  eexists _, _. split; [apply cash_flow_ok|].
  intros y Hy. destruct (sheet_rows_consecutive inp y Hy) as (c & Hr & Hr').
  eexists _, _. split; [exact Hr|]. split; [exact Hr'|].
  split; [reflexivity|]. split; [reflexivity|].
  set (r := year_record inp c y (acp_at inp y)) in *.
  set (r' := year_record inp (cumulative r) (y + 1) (acp_at inp (y + 1))).
  pose proof (production_pos inp c y (acp_at inp y) Hv) as Hp. fold r in Hp.
  pose proof (electric_rate_year_pos inp c y (acp_at inp y) Hv) as Hr0.
  fold r in Hr0.
  pose proof (escalation_range inp Hv) as [He _].
  destruct (valid_inputs_ranges inp Hv) as (_ & _ & _ & _ & (Hd0 & Hd1) & _).
  assert (Hprod : production r' == production r * (1 - degradation inp)).
  { cbn [r r' production year_record]. rewrite Qpower_next by lia. ring. }
  assert (Hrate : electric_rate_year r' ==
                  electric_rate_year r * (1 + escalation inp)).
  { cbn [r r' electric_rate_year year_record]. rewrite Qpower_next by lia.
    ring. }
  assert (Hle : production r' <= production r) by (rewrite Hprod; nra).
  split; [apply production_pos, Hv|].
  split; [exact Hle|].
  split.
  { unfold r, r'. rewrite !year_record_srecs. fold r. fold r'.
    apply Qmult_le_compat_r; [exact Hle | discriminate]. }
  rewrite Hrate. nra.
Qed.

(** From year 1 to year 2 of the default project. *)
Lemma production_and_rate_year_over_year_default :
  valid_inputs default_inputs /\
  exists (cum : Q) (ws : list YearRecord),
    cash_flow default_inputs = Ok (cum, ws) /\
    exists r r' : YearRecord,
      nth_error ws 0 = Some r /\
      nth_error ws 1 = Some r' /\
      year r = 1%Z /\ year r' = 2%Z /\
      0 < production r' /\
      production r' <= production r /\
      srecs r' <= srecs r /\
      electric_rate_year r < electric_rate_year r'.
Proof.
  assert (Hv : valid_inputs default_inputs) by reflexivity.
  split; [exact Hv|].
  destruct (production_and_rate_year_over_year default_inputs Hv)
    as (cum & ws & Hrun & Hrows).
  exists cum, ws. split; [exact Hrun|].
  apply (Hrows 1%Z). lia.
Defined.

(** ** Signs of the benefits and growth of the cumulative total *)

Lemma acp_at_nonneg (inp : Inputs) (y : Z) :
  in_horizon y -> (0 <= acp_at inp y)%Z.
Proof.
  revert y. apply horizon_forall. unfold acp_at. rewrite py_range_1_26.
  destruct (acp_schedule_cases inp) as [-> | ->];
    repeat (constructor; [vm_compute; discriminate|]); constructor.
Qed.

Lemma srec_factors_pos (inp : Inputs) :
  0 < srec_pct inp /\ 0 < srec_multiplier inp.
Proof.
  unfold srec_pct, srec_multiplier.
  destruct (jurisdiction inp =? "Washington DC")%string;
    destruct (srec_program inp =? "Brighter Tomorrow SREC")%string;
    split; reflexivity.
Qed.

Lemma srec_val_nonneg (inp : Inputs) (c : Q) (y : Z) :
  in_horizon y -> 0 <= srec_val (year_record inp c y (acp_at inp y)).
Proof.
  intros Hy. cbn [srec_val year_record].
  destruct (srec_factors_pos inp) as [Hp Hm].
  assert (Ha : 0 <= inject_Z (acp_at inp y)).
  { change 0 with (inject_Z 0). rewrite <- Zle_Qle. apply acp_at_nonneg, Hy. }
  apply Qmult_le_0_compat; [apply Qmult_le_0_compat|]; lra.
Qed.

Lemma tax_savings_nonneg (inp : Inputs) (c : Q) (y a : Z) :
  valid_inputs inp -> 0 <= tax_savings (year_record inp c y a).
Proof.
  intros Hv. cbn [tax_savings year_record].
  destruct (y =? 1)%Z; [|discriminate].
  pose proof (total_cost_nonneg inp Hv) as Htc.
  destruct (valid_inputs_ranges inp Hv) as (_ & _ & _ & (Ht0 & _) & _).
  unfold year1_depreciation_tax_savings, year1_depreciation, depreciable_basis.
  destruct (itc_status inp =? "With ITC (30%)")%string;
    apply Qmult_le_0_compat; lra.
Qed.

Lemma row_benefits_signs (inp : Inputs) (c : Q) (y : Z) :
  valid_inputs inp ->
  in_horizon y ->
  let r := year_record inp c y (acp_at inp y) in
  0 < production r /\ 0 < savings r /\ 0 <= srec_val r /\
  0 <= srec_income r /\ 0 <= tax_savings r /\ 0 < total_benefit r.
Proof.
  intros Hv Hy r.
  pose proof (production_pos inp c y (acp_at inp y) Hv) as Hp.
  pose proof (electric_rate_year_pos inp c y (acp_at inp y) Hv) as Hr.
  pose proof (srec_val_nonneg inp c y Hy) as Hs.
  pose proof (tax_savings_nonneg inp c y (acp_at inp y) Hv) as Ht.
  fold r in Hp, Hr, Hs, Ht.
  assert (Hsav : 0 < savings r).
  { unfold r. rewrite year_record_savings. fold r. nra. }
  assert (Hinc : 0 <= srec_income r).
  { unfold r. rewrite year_record_srec_income, year_record_srecs. fold r.
    apply Qmult_le_0_compat; [|exact Hs].
    apply Qle_shift_div_l; [reflexivity | lra]. }
  repeat (split; [assumption|]).
  unfold r. rewrite year_record_total_benefit. fold r. lra.
Qed.

(** X5. For inputs the widgets can produce, every row of the sheet has
    positive production and electric savings, a non-negative SREC unit
    value, SREC income and tax savings, and therefore a positive total
    benefit; the cumulative benefit of year 1 lies above
    [- after_itc_cost] and from each year to the next the cumulative
    benefit strictly grows. *)
Theorem benefits_positive_cumulative_grows (inp : Inputs) :
  valid_inputs inp ->
  exists (cum : Q) (ws : list YearRecord),
    cash_flow inp = Ok (cum, ws) /\
    (forall r : YearRecord,
        In r ws ->
        0 < production r /\ 0 < savings r /\ 0 <= srec_val r /\
        0 <= srec_income r /\ 0 <= tax_savings r /\ 0 < total_benefit r) /\
    (exists r1 : YearRecord,
        nth_error ws 0 = Some r1 /\ - after_itc_cost inp < cumulative r1) /\
    (forall y : Z,
        (1 <= y <= 24)%Z ->
        exists r r' : YearRecord,
          nth_error ws (Z.to_nat (y - 1)) = Some r /\
          nth_error ws (Z.to_nat y) = Some r' /\
          cumulative r < cumulative r').
Proof.
  intros Hv.
  eexists _, _. split; [apply cash_flow_ok|]. split; [|split].
  - intros r Hin.
    destruct (sheet_row_in_horizon inp r Hin) as (c & y & Hy & ->).
    apply (row_benefits_signs inp c y Hv Hy).
  - exists (year_record inp (- after_itc_cost inp) 1 (acp_at inp 1)).
    split; [reflexivity|].
    rewrite year_record_cumulative.
    assert (H1 : in_horizon 1) by (unfold in_horizon; lia).
    pose proof (row_benefits_signs inp (- after_itc_cost inp) 1 Hv H1)
      as (_ & _ & _ & _ & _ & Htot).
    cbv zeta in Htot. lra.
  - intros y Hy. destruct (sheet_rows_consecutive inp y Hy) as (c & Hr & Hr').
    eexists _, _. split; [exact Hr|]. split; [exact Hr'|].
    rewrite (year_record_cumulative inp _ (y + 1)).
    assert (Hn : in_horizon (y + 1)) by (unfold in_horizon; lia).
    pose proof (row_benefits_signs inp
                  (cumulative (year_record inp c y (acp_at inp y)))
                  (y + 1) Hv Hn) as (_ & _ & _ & _ & _ & Htot).
    cbv zeta in Htot. lra.
Qed.

(** From year 24 to year 25 of the Washington DC project. *)
Lemma benefits_positive_cumulative_grows_dc :
  valid_inputs dc_inputs /\
  exists (cum : Q) (ws : list YearRecord),
    cash_flow dc_inputs = Ok (cum, ws) /\
    exists r r' : YearRecord,
      nth_error ws 23 = Some r /\
      nth_error ws 24 = Some r' /\
      cumulative r < cumulative r'.
Proof.
  assert (Hv : valid_inputs dc_inputs) by reflexivity.
  split; [exact Hv|].
  destruct (benefits_positive_cumulative_grows dc_inputs Hv)
    as (cum & ws & Hrun & _ & _ & Hstep).
  exists cum, ws. split; [exact Hrun|].
  apply (Hstep 24%Z). lia.
Defined.

(** ** The SREC unit value over the years *)

Lemma acp_at_nonincreasing (inp : Inputs) (y : Z) :
  in_horizon y -> (acp_at inp (y + 1) <= acp_at inp y)%Z.
Proof.
  revert y. apply horizon_forall. unfold acp_at. rewrite py_range_1_26.
  destruct (acp_schedule_cases inp) as [-> | ->];
    repeat (constructor; [vm_compute; discriminate|]); constructor.
Qed.

Lemma md_acp_zero_from_year9 (inp : Inputs) (y : Z) :
  (jurisdiction inp =? "Washington DC")%string = false ->
  in_horizon y -> (9 <= y)%Z -> acp_at inp y = 0%Z.
Proof.
  intros Hj. revert y.
  apply (horizon_forall (fun y => (9 <= y)%Z -> acp_at inp y = 0%Z)).
  unfold acp_at, acp_schedule. rewrite Hj, py_range_1_26.
  repeat (constructor; [intros H; try reflexivity; exfalso; lia|]).
  constructor.
Qed.

Lemma dc_acp_at_least_100 (inp : Inputs) (y : Z) :
  (jurisdiction inp =? "Washington DC")%string = true ->
  in_horizon y -> (100 <= acp_at inp y)%Z.
Proof.
  intros Hj. revert y. apply horizon_forall.
  unfold acp_at, acp_schedule. rewrite Hj, py_range_1_26.
  repeat (constructor; [vm_compute; discriminate|]). constructor.
Qed.

(** X6. Whatever the inputs, the SREC unit value never rises from one year to
    the next.  When the jurisdiction is not "Washington DC" the unit value
    and the SREC income are 0 in every year from 9 on; when it is, the
    unit value is at least 85 in every year. *)
Theorem srec_unit_value_over_the_years (inp : Inputs) :
  exists (cum : Q) (ws : list YearRecord),
    cash_flow inp = Ok (cum, ws) /\
    (forall y : Z,
        (1 <= y <= 24)%Z ->
        exists r r' : YearRecord,
          nth_error ws (Z.to_nat (y - 1)) = Some r /\
          nth_error ws (Z.to_nat y) = Some r' /\
          srec_val r' <= srec_val r) /\
    (jurisdiction inp <> "Washington DC"%string ->
     forall y : Z,
       (9 <= y <= 25)%Z ->
       exists r : YearRecord,
         nth_error ws (Z.to_nat (y - 1)) = Some r /\
         srec_val r == 0 /\ srec_income r == 0) /\
    (jurisdiction inp = "Washington DC"%string ->
     forall y : Z,
       (1 <= y <= 25)%Z ->
       exists r : YearRecord,
         nth_error ws (Z.to_nat (y - 1)) = Some r /\
         85 <= srec_val r).
Proof.
  eexists _, _. split; [apply cash_flow_ok|]. split; [|split].
  - intros y Hy. destruct (sheet_rows_consecutive inp y Hy) as (c & Hr & Hr').
    eexists _, _. split; [exact Hr|]. split; [exact Hr'|].
    cbn [srec_val year_record].
    assert (Hh : in_horizon y) by (unfold in_horizon; lia).
    pose proof (acp_at_nonincreasing inp y Hh) as Hle.
    rewrite Zle_Qle in Hle.
    destruct (srec_factors_pos inp) as [Hp Hm].
    apply Qmult_le_compat_r; [|lra].
    apply Qmult_le_compat_r; [exact Hle | lra].
  - intros Hj y Hy. apply String.eqb_neq in Hj.
    assert (Hh : in_horizon y) by (unfold in_horizon; lia).
    destruct (rows_from_nth_error inp (py_range 1 26) (- after_itc_cost inp)
                _ y (py_range_nth_error y Hh)) as [c Hr].
    eexists. split; [exact Hr|].
    cbn [srec_val srec_income year_record].
    rewrite (md_acp_zero_from_year9 inp y Hj Hh) by lia.
    change (inject_Z 0) with 0. split; ring.
  - intros Hj y Hy. apply String.eqb_eq in Hj.
    assert (Hh : in_horizon y) by (unfold in_horizon; lia).
    destruct (rows_from_nth_error inp (py_range 1 26) (- after_itc_cost inp)
                _ y (py_range_nth_error y Hh)) as [c Hr].
    eexists. split; [exact Hr|].
    cbn [srec_val year_record].
    pose proof (dc_acp_at_least_100 inp y Hj Hh) as Hge.
    rewrite Zle_Qle in Hge. change (inject_Z 100) with 100 in Hge.
    unfold srec_pct, srec_multiplier, srec_program.
    rewrite Hj. apply String.eqb_eq in Hj. rewrite Hj.
    eval_string_tests. cbv iota. lra.
Qed.

(** Maryland from year 9 on, Washington DC in its last year. *)
Lemma srec_unit_value_over_the_years_instances :
  (jurisdiction default_inputs <> "Washington DC"%string /\
   exists (cum : Q) (ws : list YearRecord),
     cash_flow default_inputs = Ok (cum, ws) /\
     exists r : YearRecord,
       nth_error ws 8 = Some r /\ srec_val r == 0 /\ srec_income r == 0) /\
  (jurisdiction dc_inputs = "Washington DC"%string /\
   exists (cum : Q) (ws : list YearRecord),
     cash_flow dc_inputs = Ok (cum, ws) /\
     exists r : YearRecord,
       nth_error ws 24 = Some r /\ 85 <= srec_val r).
Proof.
  assert (Hmd : jurisdiction default_inputs <> "Washington DC"%string)
    by (vm_compute; discriminate).
  assert (Hdc : jurisdiction dc_inputs = "Washington DC"%string)
    by reflexivity.
  split; (split; [assumption|]).
  - destruct (srec_unit_value_over_the_years default_inputs)
      as (cum & ws & Hrun & _ & Hzero & _).
    exists cum, ws. split; [exact Hrun|].
    apply (Hzero Hmd 9%Z). lia.
  - destruct (srec_unit_value_over_the_years dc_inputs)
      as (cum & ws & Hrun & _ & _ & Hfloor).
    exists cum, ws. split; [exact Hrun|].
    apply (Hfloor Hdc 25%Z). lia.
Defined.

(** ** Tax savings fall in year 1 only *)

(** X7. Whatever the inputs, the row of year 1 carries the year-1 depreciation
    tax savings and every row of the years 2 to 25 carries tax savings 0,
    so that from year 2 on the total benefit is electric savings plus SREC
    income alone. *)
Theorem tax_savings_in_year1_only (inp : Inputs) :
  exists (cum : Q) (ws : list YearRecord),
    cash_flow inp = Ok (cum, ws) /\
    (exists r1 : YearRecord,
        nth_error ws 0 = Some r1 /\
        tax_savings r1 = depreciable_basis inp * tax_bracket inp) /\
    (forall y : Z,
        (2 <= y <= 25)%Z ->
        exists r : YearRecord,
          nth_error ws (Z.to_nat (y - 1)) = Some r /\
          year r = y /\
          tax_savings r = 0 /\
          total_benefit r == savings r + srec_income r).
Proof.
  eexists _, _. split; [apply cash_flow_ok|]. split.
  - exists (year_record inp (- after_itc_cost inp) 1 (acp_at inp 1)).
    split; reflexivity.
  - intros y Hy.
    assert (Hh : in_horizon y) by (unfold in_horizon; lia).
    destruct (rows_from_nth_error inp (py_range 1 26) (- after_itc_cost inp)
                _ y (py_range_nth_error y Hh)) as [c Hr].
    eexists. split; [exact Hr|]. split; [reflexivity|].
    assert (Hne : (y =? 1)%Z = false) by (apply Z.eqb_neq; lia).
    assert (Htax : tax_savings (year_record inp c y (acp_at inp y)) = 0)
      by (cbn [tax_savings year_record]; rewrite Hne; reflexivity).
    split; [exact Htax|].
    rewrite year_record_total_benefit, Htax. ring.
Qed.

(** Year 2 of the project without ITC. *)
Lemma tax_savings_in_year1_only_year2 :
  exists (cum : Q) (ws : list YearRecord),
    cash_flow no_itc_inputs = Ok (cum, ws) /\
    exists r : YearRecord,
      nth_error ws 1 = Some r /\
      year r = 2%Z /\
      tax_savings r = 0 /\
      total_benefit r == savings r + srec_income r.
Proof.
  destruct (tax_savings_in_year1_only no_itc_inputs)
    as (cum & ws & Hrun & _ & Hlater).
  exists cum, ws. split; [exact Hrun|].
  apply (Hlater 2%Z). lia.
Defined.

(** ** Default electric rate of a utility *)

(** X9. Every option of the "Utility Company" select box has an entry in
    [utility_rates], and the rate found lies within the bounds 0.05 and
    0.50 of the "Electric Rate" input it initialises; any other key
    raises [KeyError]. *)
Theorem default_electric_rate_of_utility (u : string) :
  (In u utility_options ->
   exists r : Q,
     default_electric_rate u = Ok r /\ within 0.05 0.50 r = true) /\
  (~ In u utility_options -> default_electric_rate u = Raise "KeyError").
Proof.
  split.
  - unfold utility_options. simpl.
    intros [<- | [<- | [<- | [<- | [<- | []]]]]];
      eexists; split; reflexivity.
  - intros Hout. unfold default_electric_rate, utility_rates.
    unfold utility_options in Hout. cbn [py_getitem].
    repeat match goal with
           | |- context [String.eqb u ?k] =>
               destruct (String.eqb_spec u k) as [-> | _];
               [exfalso; apply Hout; simpl; tauto|]
           end.
    reflexivity.
Qed.

(** BGE has a default rate; a utility that is not offered has none. *)
Lemma default_electric_rate_of_utility_instances :
  (In "BGE"%string utility_options /\
   exists r : Q,
     default_electric_rate "BGE" = Ok r /\ within 0.05 0.50 r = true) /\
  (~ In "Dominion"%string utility_options /\
   default_electric_rate "Dominion" = Raise "KeyError").
Proof.
  assert (Hin : In "BGE"%string utility_options) by (simpl; tauto).
  assert (Hout : ~ In "Dominion"%string utility_options).
  { simpl. intros [H | [H | [H | [H | [H | []]]]]]; discriminate. }
  split; (split; [assumption|]).
  - apply (proj1 (default_electric_rate_of_utility "BGE") Hin).
  - apply (proj2 (default_electric_rate_of_utility "Dominion") Hout).
Defined.

(** ** Escalation options *)

Lemma split_head_stops (sep : ascii) (s t : string) :
  occurs sep s = false ->
  split_head sep (s ++ String sep t) = s.
Proof.
  induction s as [|c s IH]; simpl.
  - rewrite Ascii.eqb_refl. reflexivity.
  - intros H. apply orb_false_iff in H as [Hc Hs].
    rewrite Hc, (IH Hs). reflexivity.
Qed.

(** X10. Each option of the "Escalation Rate" select box is parsed to the
    number in front of its percent sign: "2.0% (Conservative)" to 2.0,
    "3.5% (Moderate)" to 3.5 and "5.0% (Aggressive)" to 5.0, the three
    values [widgets_ok] admits for [escalation_pct]; the escalation rate
    is that number divided by 100 and lies between 0.02 and 0.05.  In
    general the text parsed is the text in front of the first percent
    sign. *)
Theorem escalation_options_parse (escalation_rate : string) :
  In escalation_rate escalation_rate_options ->
  exists pct : Q,
    escalation_pct_of escalation_rate = Some pct /\
    (escalation_rate = "2.0% (Conservative)"%string /\ pct == 2.0 \/
     escalation_rate = "3.5% (Moderate)"%string /\ pct == 3.5 \/
     escalation_rate = "5.0% (Aggressive)"%string /\ pct == 5.0) /\
    escalation_of escalation_rate = Some (pct / 100) /\
    0.02 <= pct / 100 /\ pct / 100 <= 0.05 /\
    (forall numeral rest : string,
        occurs "%" numeral = false ->
        escalation_pct_of (numeral ++ String "%" rest) =
        float_of_decimal numeral).
Proof.
  intros Hin.
  assert (Hsplit : forall numeral rest : string,
             occurs "%" numeral = false ->
             escalation_pct_of (numeral ++ String "%" rest) =
             float_of_decimal numeral).
  { intros numeral rest Hn. unfold escalation_pct_of.
    rewrite (split_head_stops _ _ _ Hn). reflexivity. }
  unfold escalation_rate_options in Hin. simpl in Hin.
  destruct Hin as [<- | [<- | [<- | []]]];
    eexists; (split; [reflexivity|]); (split; [|split; [reflexivity|]]).
  - left. split; reflexivity.
  - repeat split; try exact Hsplit; vm_compute; discriminate.
  - right. left. split; reflexivity.
  - repeat split; try exact Hsplit; vm_compute; discriminate.
  - right. right. split; reflexivity.
  - repeat split; try exact Hsplit; vm_compute; discriminate.
Qed.

(** The moderate option is 3.5%, a rate of 0.035. *)
Lemma escalation_options_parse_moderate :
  In "3.5% (Moderate)"%string escalation_rate_options /\
  exists pct : Q,
    escalation_pct_of "3.5% (Moderate)" = Some pct /\
    pct == 3.5 /\
    escalation_of "3.5% (Moderate)" = Some (pct / 100) /\
    pct / 100 == 0.035.
Proof.
  assert (Hin : In "3.5% (Moderate)"%string escalation_rate_options)
    by (simpl; tauto).
  split; [exact Hin|].
  destruct (escalation_options_parse _ Hin)
    as (pct & Hpct & Hcase & Hesc & _).
  exists pct. split; [exact Hpct|].
  assert (Hval : pct == 3.5).
  { destruct Hcase as [[H _] | [[_ H] | [H _]]];
      [discriminate H | exact H | discriminate H]. }
  split; [exact Hval|]. split; [exact Hesc|].
  rewrite Hval. reflexivity.
Defined.

(** ** Name of the download *)

Lemma occurs_append (c : ascii) (s t : string) :
  occurs c (s ++ t)%string = occurs c s || occurs c t.
Proof.
  induction s as [|c' s IH]; simpl.
  - reflexivity.
  - rewrite IH, orb_assoc. reflexivity.
Qed.

Lemma string_length_append (s t : string) :
  String.length (s ++ t)%string = (String.length s + String.length t)%nat.
Proof.
  induction s as [|c s IH]; simpl; [reflexivity | rewrite IH; reflexivity].
Qed.

Lemma py_replace_char_removes (old new : ascii) (s : string) :
  old <> new -> occurs old (py_replace_char old new s) = false.
Proof.
  intros Hne. induction s as [|c s IH]; simpl.
  - reflexivity.
  - rewrite IH, orb_false_r.
    destruct (Ascii.eqb_spec c old) as [-> | Hc].
    + apply Ascii.eqb_neq. intros E. apply Hne. symmetry. exact E.
    + apply Ascii.eqb_neq. exact Hc.
Qed.

Lemma py_replace_char_length (old new : ascii) (s : string) :
  String.length (py_replace_char old new s) = String.length s.
Proof.
  induction s as [|c s IH]; simpl; [reflexivity | rewrite IH; reflexivity].
Qed.

Lemma py_replace_char_absent (old new : ascii) (s : string) :
  occurs old s = false -> py_replace_char old new s = s.
Proof.
  induction s as [|c s IH]; simpl.
  - reflexivity.
  - intros H. apply orb_false_iff in H as [Hc Hs].
    rewrite Hc, (IH Hs). reflexivity.
Qed.

Lemma py_replace_char_append (old new : ascii) (s t : string) :
  py_replace_char old new (s ++ t) =
  (py_replace_char old new s ++ py_replace_char old new t)%string.
Proof.
  induction s as [|c s IH]; simpl; [reflexivity | rewrite IH; reflexivity].
Qed.

Lemma py_replace_char_get (old new : ascii) (s : string) :
  forall i : nat,
    String.get i (py_replace_char old new s) =
    option_map (fun c => if Ascii.eqb c old then new else c) (String.get i s).
Proof.
  induction s as [|c s IH]; intros i; simpl.
  - reflexivity.
  - destruct i as [|i]; [reflexivity | apply IH].
Qed.

(** X11. The file name of the download is the text
    [customer_name + "_" + project_name + "_ProForma.xlsx"] with every
    blank replaced by an underscore and every other character kept in its
    place.  Hence it never contains a blank, it is as long as the two
    names together plus 15 characters, and names without blanks appear in
    it unchanged. *)
Theorem filename_replaces_blanks (inp : Inputs) :
  (forall i : nat,
      String.get i (filename inp) =
      option_map (fun c => if Ascii.eqb c " " then "_"%char else c)
                 (String.get i (customer_name inp ++ "_" ++ project_name inp
                                ++ "_ProForma.xlsx"))) /\
  occurs " " (filename inp) = false /\
  String.length (filename inp) =
    (String.length (customer_name inp) + String.length (project_name inp)
     + 15)%nat /\
  (occurs " " (customer_name inp) = false ->
   occurs " " (project_name inp) = false ->
   filename inp =
   (customer_name inp ++ "_" ++ project_name inp ++ "_ProForma.xlsx")%string).
Proof.
  assert (Hwhole : filename inp =
                   py_replace_char " " "_"
                     (customer_name inp ++ "_" ++ project_name inp
                      ++ "_ProForma.xlsx")).
  { unfold filename. rewrite !py_replace_char_append. reflexivity. }
  split; [|split; [|split]].
  - intros i. rewrite Hwhole. apply py_replace_char_get.
  - rewrite Hwhole. apply py_replace_char_removes. discriminate.
  - rewrite Hwhole, py_replace_char_length, !string_length_append.
    simpl. lia.
  - intros Hc Hp. unfold filename.
    rewrite !py_replace_char_absent by assumption. reflexivity.
Qed.

(** The default names: the blanks of "Notre Dame MD" become underscores;
    and two names without blanks. *)
Lemma filename_replaces_blanks_instances :
  (String.get 10 ("NDMU" ++ "_" ++ "Notre Dame MD" ++ "_ProForma.xlsx")
   = Some " "%char /\
   String.get 10 (filename default_inputs) = Some "_"%char /\
   String.get 11 (filename default_inputs) = Some "D"%char /\
   filename default_inputs = "NDMU_Notre_Dame_MD_ProForma.xlsx"%string) /\
  (occurs " " "NDMU" = false /\
   occurs " " "Campus" = false /\
   filename (mkInputs "NDMU" "Campus" 236.6 "Maryland" "PEPCO Maryland"
                      0.135 1250 0.21 "With ITC (30%)" "Standard SREC" 3.5
                      0.005 default_pricing) =
   "NDMU_Campus_ProForma.xlsx"%string).
Proof.
  assert (Hc : occurs " " "NDMU" = false) by reflexivity.
  assert (Hp : occurs " " "Campus" = false) by reflexivity.
  split.
  - split; [reflexivity|]. split; [|split; [|reflexivity]].
    + rewrite (proj1 (filename_replaces_blanks default_inputs) 10%nat).
      reflexivity.
    + rewrite (proj1 (filename_replaces_blanks default_inputs) 11%nat).
      reflexivity.
  - split; [exact Hc|]. split; [exact Hp|].
    apply (proj2 (proj2 (proj2 (filename_replaces_blanks
                           (mkInputs "NDMU" "Campus" 236.6 "Maryland"
                                     "PEPCO Maryland" 0.135 1250 0.21
                                     "With ITC (30%)" "Standard SREC" 3.5
                                     0.005 default_pricing)))) Hc Hp).
Defined.

(** ** The Inputs sheet: assignments that cannot fail *)

Lemma substring_whole (s : string) :
  forall m : nat, (String.length s <= m)%nat -> substring 0 m s = s.
Proof.
  induction s as [|c s IH]; intros m Hm.
  - destruct m; reflexivity.
  - destruct m as [|m]; simpl in Hm; [lia|].
    simpl. rewrite IH by lia. reflexivity.
Qed.

Lemma plain_character_legal (c : ascii) :
  plain_character c = true -> illegal_character c = false.
Proof.
  unfold plain_character, illegal_character.
  generalize (N_of_ascii c) as n. intros n.
  rewrite andb_true_iff, !N.leb_le. intros [Hlo Hhi].
  rewrite !orb_false_iff, !andb_false_iff, !N.leb_gt. lia.
Qed.

Lemma check_string_plain (s : string) :
  plain_text s = true -> check_string s = Ok s.
Proof.
  unfold plain_text, check_string. rewrite andb_true_iff, N.leb_le.
  intros [Hlen Hchars].
  rewrite (substring_whole s max_cell_text) by (unfold max_cell_text; lia).
  assert (Hnone : existsb illegal_character (list_ascii_of_string s) = false).
  { rewrite forallb_forall in Hchars.
    apply not_true_iff_false. intros Hex.
    apply existsb_exists in Hex as (c & Hin & Hc).
    rewrite (plain_character_legal c (Hchars c Hin)) in Hc. discriminate. }
  rewrite Hnone. reflexivity.
Qed.

Lemma set_value_plain (ws : list Write) (col : string) (row : Z) (v : PyVal) :
  plain_value v = true ->
  set_value ws col row v = Ok (ws ++ [SetValue col row v]).
Proof.
  destruct v as [s|n|q]; cbn [plain_value set_value]; intros Hv.
  - rewrite (check_string_plain s Hv). reflexivity.
  - reflexivity.
  - reflexivity.
Qed.

Lemma plain_text_append (s t : string) :
  plain_text (s ++ t) = true -> plain_text s = true /\ plain_text t = true.
Proof.
  unfold plain_text. rewrite !andb_true_iff, !N.leb_le.
  rewrite string_length_append.
  assert (Hl : list_ascii_of_string (s ++ t)
               = list_ascii_of_string s ++ list_ascii_of_string t).
  { induction s as [|c s IH]; simpl; [reflexivity | rewrite IH; reflexivity]. }
  rewrite Hl, forallb_app, andb_true_iff.
  intros [Hlen [Hs Ht]]. repeat split; try assumption; lia.
Qed.

Lemma memb_In (s : string) (opts : list string) :
  memb s opts = true -> In s opts.
Proof.
  unfold memb. intros H. apply existsb_exists in H as (o & Hin & Ho).
  apply String.eqb_eq in Ho. subst o. exact Hin.
Qed.

Lemma plain_option (s : string) (opts : list string) :
  forallb plain_text opts = true -> memb s opts = true -> plain_text s = true.
Proof.
  intros Hall Hs. rewrite forallb_forall in Hall.
  apply Hall, memb_In, Hs.
Qed.

(** The texts of the select boxes are plain. *)
Lemma valid_inputs_texts (inp : Inputs) :
  valid_inputs inp ->
  plain_text (itc_status inp) = true /\
  plain_text (utility inp) = true /\
  plain_text (jurisdiction inp) = true /\
  plain_text (srec_program inp) = true /\
  truthy (jurisdiction inp) = true.
Proof.
  intros Hv. pose proof Hv as Hw.
  unfold valid_inputs, widgets_ok in Hw. rewrite !andb_true_iff in Hw.
  decompose [and] Hw. clear Hw.
  destruct (valid_inputs_selects inp Hv) as [Hj Hp].
  split; [eapply plain_option; [|eassumption]; reflexivity|].
  split; [eapply plain_option; [|eassumption]; reflexivity|].
  split; [eapply plain_option; [|eassumption]; reflexivity|].
  unfold srec_program.
  destruct Hj as [-> | ->]; eval_string_tests; cbv iota.
  - split; [|reflexivity]. destruct Hp as [-> | ->]; reflexivity.
  - split; reflexivity.
Qed.

(** The loops as blocks of writes. *)
Lemma write_toggles_block (l : list (string * string * string)) :
  forallb toggle_plain l = true ->
  forall (row : Z) (ws : list Write),
    write_toggles l row ws =
    Ok ((row + Z.of_nat (List.length l))%Z,
        ws ++ block_writes toggle_row_writes l row).
Proof.
  induction l as [|[[label value] note] l IH]; intros Hall row ws.
  - simpl. rewrite Z.add_0_r, app_nil_r. reflexivity.
  - cbn [forallb] in Hall. apply andb_true_iff in Hall as [He Hl].
    unfold toggle_plain in He. cbn [fst snd] in He.
    apply andb_true_iff in He as [He Hnote].
    apply andb_true_iff in He as [Hlabel Hvalue].
    cbn [write_toggles block_writes toggle_row_writes].
    rewrite (set_value_plain _ _ _ (VStr label) Hlabel). cbn [bind].
    rewrite (set_value_plain _ _ _ (VStr value) Hvalue). cbn [bind].
    destruct (truthy note).
    + rewrite (set_value_plain _ _ _ (VStr note) Hnote). cbn [bind].
      rewrite (IH Hl). f_equal. f_equal; [rewrite length_cons; lia|].
      rewrite <- !app_assoc. reflexivity.
    + cbn [bind]. rewrite (IH Hl). f_equal.
      f_equal; [rewrite length_cons; lia|].
      rewrite <- !app_assoc. reflexivity.
Qed.

Lemma write_inputs_block (l : list (string * PyVal * string)) :
  forallb input_plain l = true ->
  forall (row : Z) (ws : list Write),
    write_inputs l row ws =
    Ok ((row + Z.of_nat (List.length l))%Z,
        ws ++ block_writes input_row_writes l row).
Proof.
  induction l as [|[[label value] unit_] l IH]; intros Hall row ws.
  - simpl. rewrite Z.add_0_r, app_nil_r. reflexivity.
  - cbn [forallb] in Hall. apply andb_true_iff in Hall as [He Hl].
    unfold input_plain in He. cbn [fst snd] in He.
    apply andb_true_iff in He as [He Hunit].
    apply andb_true_iff in He as [Hlabel Hvalue].
    cbn [write_inputs block_writes input_row_writes].
    rewrite (set_value_plain _ _ _ (VStr label) Hlabel). cbn [bind].
    rewrite (set_value_plain _ _ _ value Hvalue). cbn [bind].
    unfold set_format.
    destruct (inputs_number_format value);
      rewrite (set_value_plain _ _ _ (VStr unit_) Hunit); cbn [bind];
      rewrite (IH Hl); f_equal;
      (f_equal; [rewrite length_cons; lia|]);
      rewrite <- !app_assoc; reflexivity.
Qed.

Lemma write_costs_block (inp : Inputs) (l : list (string * Q)) :
  forallb cost_plain l = true ->
  forall (row : Z) (ws : list Write),
    write_costs inp l row ws =
    Ok ((row + Z.of_nat (List.length l))%Z,
        ws ++ block_writes (cost_row_writes inp) l row).
Proof.
  induction l as [|[category cost_per_w] l IH]; intros Hall row ws.
  - simpl. rewrite Z.add_0_r, app_nil_r. reflexivity.
  - cbn [forallb] in Hall. apply andb_true_iff in Hall as [Hcat Hl].
    unfold cost_plain in Hcat. cbn [fst] in Hcat.
    cbn [write_costs block_writes cost_row_writes].
    rewrite (set_value_plain _ _ _ (VStr category) Hcat). cbn [bind].
    cbn [set_value bind]. unfold set_format.
    rewrite (IH Hl). f_equal. f_equal; [rewrite length_cons; lia|].
    rewrite <- !app_assoc. reflexivity.
Qed.

(** On inputs the widgets can produce, with a title of plain text, every
    assignment of the sheet succeeds. *)
Lemma inputs_sheet_ok (inp : Inputs) (format_pct1 : Q -> string) :
  valid_inputs inp ->
  plain_text (sheet_title inp) = true ->
  plain_text (format_pct1 (escalation inp)) = true ->
  inputs_sheet inp format_pct1 = Ok (41%Z, sheet_writes inp format_pct1).
Proof.
  intros Hv Htitle Hpct.
  destruct (valid_inputs_texts inp Hv) as (Hitc & Hutil & Hjur & Hprog & _).
  assert (Hnames : plain_text (customer_name inp) = true /\
                   plain_text (project_name inp) = true).
  { unfold sheet_title in Htitle.
    apply plain_text_append in Htitle as [Hc Hrest].
    apply plain_text_append in Hrest as [_ Hrest].
    apply plain_text_append in Hrest as [Hp _]. split; assumption. }
  destruct Hnames as [Hcust Hproj].
  assert (Htog : forallb toggle_plain (toggles inp format_pct1) = true).
  { unfold toggles, toggle_plain. cbn [forallb fst snd].
    rewrite Hitc, Hutil, Hjur, Hprog, Hpct. reflexivity. }
  assert (Hinp : forallb input_plain (inputs inp) = true).
  { unfold inputs, input_plain. cbn [forallb fst snd plain_value].
    rewrite Hcust, Hproj. reflexivity. }
  assert (Hcost : forallb cost_plain (pricing_inputs inp) = true)
    by reflexivity.
  unfold inputs_sheet, sheet_writes, sheet_front, sheet_back.
  rewrite (set_value_plain _ _ _ (VStr (sheet_title inp)) Htitle). cbn [bind].
  repeat (rewrite set_value_plain by reflexivity; cbn [bind]).
  rewrite (write_toggles_block _ Htog). cbn [bind fst snd].
  repeat (rewrite set_value_plain by reflexivity; cbn [bind]).
  rewrite (write_inputs_block _ Hinp). cbn [bind fst snd].
  repeat (rewrite set_value_plain by reflexivity; cbn [bind]).
  rewrite (write_costs_block inp _ Hcost). cbn [bind fst snd].
  repeat (rewrite set_value_plain by reflexivity; cbn [bind]).
  unfold set_format.
  apply f_equal. apply f_equal2; [reflexivity|].
  cbn [app]. rewrite <- !app_assoc. reflexivity.
Qed.

(** ** The Inputs sheet: reading cells back *)

Lemma cell_value_app (ws ws' : list Write) (col : string) (row : Z) :
  cell_value (ws ++ ws') col row =
  match cell_value ws' col row with
  | Some v => Some v
  | None => cell_value ws col row
  end.
Proof.
  unfold cell_value. rewrite fold_left_app.
  generalize (fold_left
                (fun acc w =>
                   match w with
                   | SetValue _ _ v => if at_cell col row w then Some v else acc
                   | SetFormat _ _ _ => acc
                   end) ws None) as acc.
  induction ws' as [|w ws' IH]; intros acc; simpl.
  - reflexivity.
  - rewrite IH. symmetry. rewrite IH. symmetry.
    destruct (fold_left _ ws' None); [reflexivity|].
    destruct w; [destruct (at_cell col row _)|]; reflexivity.
Qed.

Lemma cell_format_app (ws ws' : list Write) (col : string) (row : Z) :
  cell_format (ws ++ ws') col row =
  match cell_format ws' col row with
  | Some f => Some f
  | None => cell_format ws col row
  end.
Proof.
  unfold cell_format. rewrite fold_left_app.
  generalize (fold_left
                (fun acc w =>
                   match w with
                   | SetFormat _ _ f => if at_cell col row w then Some f else acc
                   | SetValue _ _ _ => acc
                   end) ws None) as acc.
  induction ws' as [|w ws' IH]; intros acc; simpl.
  - reflexivity.
  - rewrite IH. symmetry. rewrite IH. symmetry.
    destruct (fold_left _ ws' None); [reflexivity|].
    destruct w; [|destruct (at_cell col row _)]; reflexivity.
Qed.

Lemma cells_untouched (ws : list Write) (col : string) (r : Z) :
  Forall (fun w => snd (address w) <> r) ws ->
  cell_value ws col r = None /\ cell_format ws col r = None.
Proof.
  induction ws as [|w ws IH] using rev_ind; intros Hall.
  - split; reflexivity.
  - apply Forall_app in Hall as [Hws Hw]. inversion_clear Hw as [|? ? Hr _].
    destruct (IH Hws) as [Hv Hf].
    rewrite cell_value_app, cell_format_app, Hv, Hf.
    assert (Hat : at_cell col r w = false).
    { unfold at_cell. apply Z.eqb_neq in Hr. rewrite Hr. apply andb_false_r. }
    unfold cell_value, cell_format. cbn [fold_left].
    destruct w; rewrite Hat; split; reflexivity.
Qed.

Lemma no_formats (ws : list Write) (col : string) (r : Z) :
  Forall (fun w => is_value w = true) ws -> cell_format ws col r = None.
Proof.
  induction ws as [|w ws IH] using rev_ind; intros Hall.
  - reflexivity.
  - apply Forall_app in Hall as [Hws Hw]. inversion_clear Hw as [|? ? Hv _].
    rewrite cell_format_app, (IH Hws).
    destruct w; [reflexivity | discriminate].
Qed.

Lemma input_row_writes_rows (e : string * PyVal * string) (r : Z) :
  Forall (fun w => snd (address w) = r) (input_row_writes e r).
Proof.
  destruct e as [[label value] unit_]. unfold input_row_writes.
  destruct (inputs_number_format value); repeat constructor.
Qed.

Lemma block_rows_above {A : Type} (row_writes : A -> Z -> list Write) :
  (forall e r, Forall (fun w => snd (address w) = r) (row_writes e r)) ->
  forall (l : list A) (row0 : Z),
    Forall (fun w => (row0 < snd (address w))%Z) (block_writes row_writes l row0).
Proof.
  intros Hrow. induction l as [|e l IH]; intros row0; cbn [block_writes].
  - constructor.
  - apply Forall_app. split.
    + eapply Forall_impl; [|apply (Hrow e (row0 + 1)%Z)].
      intros w Hw. cbv beta in Hw. lia.
    + eapply Forall_impl; [|apply (IH (row0 + 1)%Z)].
      intros w Hw. cbv beta in Hw. lia.
Qed.

Lemma input_block_untouched (l : list (string * PyVal * string))
      (row0 : Z) (col : string) (r : Z) :
  (r <= row0)%Z ->
  cell_value (block_writes input_row_writes l row0) col r = None /\
  cell_format (block_writes input_row_writes l row0) col r = None.
Proof.
  intros Hr. apply cells_untouched.
  eapply Forall_impl; [|apply (block_rows_above _ input_row_writes_rows l row0)].
  intros w Hw. cbv beta in Hw. lia.
Qed.

Lemma input_row_read (label : string) (value : PyVal) (unit_ : string) (r : Z) :
  let ws := input_row_writes (label, value, unit_) r in
  cell_value ws "B" r = Some (VStr label) /\
  cell_value ws "C" r = Some value /\
  cell_value ws "D" r = Some (VStr unit_) /\
  cell_format ws "C" r = inputs_number_format value.
Proof.
  unfold input_row_writes.
  destruct (inputs_number_format value);
    unfold cell_value, cell_format, at_cell;
    cbn [app fold_left address fst snd];
    rewrite !Z.eqb_refl; eval_string_tests; cbn [andb];
    repeat split; reflexivity.
Qed.

Lemma input_block_read (l : list (string * PyVal * string)) :
  forall (row0 : Z) (i : nat) (label : string) (value : PyVal) (unit_ : string),
    nth_error l i = Some (label, value, unit_) ->
    let ws := block_writes input_row_writes l row0 in
    let r := (row0 + 1 + Z.of_nat i)%Z in
    cell_value ws "B" r = Some (VStr label) /\
    cell_value ws "C" r = Some value /\
    cell_value ws "D" r = Some (VStr unit_) /\
    cell_format ws "C" r = inputs_number_format value.
Proof.
  induction l as [|e l IH]; intros row0 i label value unit_ Hi.
  - destruct i; discriminate.
  - cbn [block_writes]. cbv zeta.
    rewrite !cell_value_app, cell_format_app.
    destruct i as [|i].
    + injection Hi as ->.
      replace (row0 + 1 + Z.of_nat 0)%Z with (row0 + 1)%Z by lia.
      assert (Hle : (row0 + 1 <= row0 + 1)%Z) by lia.
      rewrite (proj1 (input_block_untouched l (row0 + 1) "B" _ Hle)).
      rewrite (proj1 (input_block_untouched l (row0 + 1) "C" _ Hle)).
      rewrite (proj1 (input_block_untouched l (row0 + 1) "D" _ Hle)).
      rewrite (proj2 (input_block_untouched l (row0 + 1) "C" _ Hle)).
      apply input_row_read.
    + cbn [nth_error] in Hi.
      replace (row0 + 1 + Z.of_nat (S i))%Z
        with (row0 + 1 + 1 + Z.of_nat i)%Z by lia.
      destruct (IH (row0 + 1)%Z i label value unit_ Hi)
        as (HB & HC & HD & HF).
      cbv zeta in HB, HC, HD, HF. rewrite HB, HC, HD, HF.
      repeat split; try reflexivity.
      destruct (inputs_number_format value) eqn:Hfmt; [reflexivity|].
      assert (Hne : Forall (fun w => snd (address w)
                                     <> (row0 + 1 + 1 + Z.of_nat i)%Z)
                           (input_row_writes e (row0 + 1))).
      { eapply Forall_impl; [|apply input_row_writes_rows].
        intros w Hw. cbv beta in Hw. lia. }
      apply (proj2 (cells_untouched _ "C" _ Hne)).
Qed.

Lemma sheet_back_rows (inp : Inputs) :
  Forall (fun w => (22 <= snd (address w))%Z) (sheet_back inp).
Proof.
  unfold sheet_back, pricing_inputs.
  cbn [block_writes cost_row_writes app].
  repeat (apply Forall_cons; [cbn [address snd]; lia|]). apply Forall_nil.
Qed.

Lemma sheet_front_values_only (inp : Inputs) (format_pct1 : Q -> string) :
  Forall (fun w => is_value w = true) (sheet_front inp format_pct1).
Proof.
  unfold sheet_front, toggles.
  cbn [block_writes toggle_row_writes app].
  destruct (truthy (jurisdiction inp)); eval_string_tests;
    cbn [truthy negb app];
    repeat (apply Forall_cons; [reflexivity|]); apply Forall_nil.
Qed.

Lemma sheet_rows_12_to_20 (inp : Inputs) (format_pct1 : Q -> string)
      (col : string) (r : Z) :
  (12 <= r <= 20)%Z ->
  let ws := sheet_writes inp format_pct1 in
  let block := block_writes input_row_writes (inputs inp) 11 in
  cell_value ws col r =
    match cell_value block col r with
    | Some v => Some v
    | None => cell_value (sheet_front inp format_pct1) col r
    end /\
  cell_format ws col r = cell_format block col r.
Proof.
  intros Hr. cbv zeta. unfold sheet_writes.
  assert (Hback : Forall (fun w => snd (address w) <> r) (sheet_back inp)).
  { eapply Forall_impl; [|apply sheet_back_rows].
    intros w Hw. cbv beta in Hw. lia. }
  rewrite !cell_value_app, !cell_format_app.
  rewrite (proj1 (cells_untouched _ col _ Hback)).
  rewrite (proj2 (cells_untouched _ col _ Hback)).
  split; [reflexivity|].
  destruct (cell_format (block_writes input_row_writes (inputs inp) 11) col r);
    [reflexivity|].
  apply no_formats, sheet_front_values_only.
Qed.

Lemma sheet_input_cells (inp : Inputs) (format_pct1 : Q -> string)
      (i : nat) (r : Z) (label : string) (value : PyVal) (unit_ : string) :
  nth_error (inputs inp) i = Some (label, value, unit_) ->
  r = (12 + Z.of_nat i)%Z ->
  let ws := sheet_writes inp format_pct1 in
  cell_value ws "B" r = Some (VStr label) /\
  cell_value ws "C" r = Some value /\
  cell_value ws "D" r = Some (VStr unit_) /\
  cell_format ws "C" r = inputs_number_format value.
Proof.
  intros Hi ->. cbv zeta.
  assert (Hlt : (i < 9)%nat).
  { apply (proj1 (nth_error_Some (inputs inp) i)). rewrite Hi. discriminate. }
  assert (Hr : (12 <= 12 + Z.of_nat i <= 20)%Z) by lia.
  destruct (input_block_read (inputs inp) 11 i label value unit_ Hi)
    as (HB & HC & HD & HF).
  cbv zeta in HB, HC, HD, HF.
  replace (11 + 1 + Z.of_nat i)%Z with (12 + Z.of_nat i)%Z in * by lia.
  destruct (sheet_rows_12_to_20 inp format_pct1 "B" _ Hr) as [-> _].
  destruct (sheet_rows_12_to_20 inp format_pct1 "C" _ Hr) as [-> ->].
  destruct (sheet_rows_12_to_20 inp format_pct1 "D" _ Hr) as [-> _].
  rewrite HB, HC, HD, HF. repeat split.
Qed.



(** ** The Inputs sheet: number formats on inputs the widgets can produce *)

Lemma Qle_bool_false (a b : Q) : Qle_bool a b = false <-> b < a.
Proof.
  rewrite <- not_true_iff_false, Qle_bool_iff.
  split; [apply Qnot_le_lt | apply Qlt_not_le].
Qed.

Lemma format_of_fraction (q : Q) :
  0 < q -> q < 1 -> inputs_number_format (VFloat q) = Some pct_format.
Proof.
  intros H0 H1. unfold inputs_number_format. cbn [number_of].
  rewrite (proj2 (Qle_bool_false 1 q) H1), (proj2 (Qgtb_true q 0) H0).
  reflexivity.
Qed.

Lemma format_of_number_from_1 (v : PyVal) (q : Q) :
  number_of v = Some q -> 1 <= q ->
  inputs_number_format v =
  if Qgtb q 100 then Some currency_format else None.
Proof.
  intros Hv H1. unfold inputs_number_format. rewrite Hv.
  rewrite (proj2 (Qle_bool_iff 1 q) H1). reflexivity.
Qed.

Lemma format_of_number_upto_100 (q : Q) :
  0 <= q -> q <= 100 ->
  inputs_number_format (VFloat q) =
  if Qgtb q 0 && negb (Qle_bool 1 q) then Some pct_format else None.
Proof.
  intros H0 H100. unfold inputs_number_format. cbn [number_of].
  rewrite (proj2 (Qgtb_false q 100) H100), andb_comm.
  destruct (Qgtb q 0 && negb (Qle_bool 1 q)); reflexivity.
Qed.

(** X13. On inputs the widgets can produce, with a title and an escalation
    text of plain text, the sheet is written without an exception and the
    rows that show a value of the form get these number formats in column
    C: the electric rate (row 18) always the percentage format; the TSRF
    (row 17) always the currency format; the system size in kW (row 14)
    the currency format when it exceeds 100 and none otherwise; the tax
    bracket (row 19) and the panel degradation (row 20) the percentage
    format when they are positive and none otherwise; the two names (rows
    12 and 13) none. *)
Theorem inputs_sheet_number_formats (inp : Inputs) (format_pct1 : Q -> string) :
  valid_inputs inp ->
  plain_text (sheet_title inp) = true ->
  plain_text (format_pct1 (escalation inp)) = true ->
  exists ws : list Write,
    inputs_sheet inp format_pct1 = Ok (41%Z, ws) /\
    (cell_value ws "B" 18 = Some (VStr "Electric Rate") /\
     cell_value ws "C" 18 = Some (VFloat (electric_rate inp)) /\
     cell_format ws "C" 18 = Some pct_format) /\
    (cell_value ws "B" 17 = Some (VStr "TSRF") /\
     cell_value ws "C" 17 = Some (VInt (tsrf inp)) /\
     cell_format ws "C" 17 = Some currency_format) /\
    (cell_value ws "B" 14 = Some (VStr "System Size") /\
     cell_value ws "C" 14 = Some (VFloat (system_size_kw inp)) /\
     cell_format ws "C" 14 =
     if Qgtb (system_size_kw inp) 100 then Some currency_format else None) /\
    (cell_value ws "B" 19 = Some (VStr "Tax Bracket") /\
     cell_value ws "C" 19 = Some (VFloat (tax_bracket inp)) /\
     cell_format ws "C" 19 =
     if Qgtb (tax_bracket inp) 0 then Some pct_format else None) /\
    (cell_value ws "B" 20 = Some (VStr "Panel Degradation") /\
     cell_value ws "C" 20 = Some (VFloat (degradation inp)) /\
     cell_format ws "C" 20 =
     if Qgtb (degradation inp) 0 then Some pct_format else None) /\
    (cell_format ws "C" 12 = None /\ cell_format ws "C" 13 = None).
Proof.
  intros Hv Htitle Hpct.
  exists (sheet_writes inp format_pct1).
  split; [apply inputs_sheet_ok; assumption|].
  destruct (valid_inputs_ranges inp Hv)
    as ((Hkw0 & Hkw1) & (Hr0 & Hr1) & (Ht0 & Ht1) & (Hb0 & Hb1) & (Hd0 & Hd1) & _).
  assert (Hcell : forall (i : nat) (r : Z) label value unit_,
             nth_error (inputs inp) i = Some (label, value, unit_) ->
             r = (12 + Z.of_nat i)%Z ->
             cell_value (sheet_writes inp format_pct1) "B" r =
               Some (VStr label) /\
             cell_value (sheet_writes inp format_pct1) "C" r = Some value /\
             cell_format (sheet_writes inp format_pct1) "C" r =
               inputs_number_format value).
  { intros i r label value unit_ Hi Hr.
    destruct (sheet_input_cells inp format_pct1 i r label value unit_ Hi Hr)
      as (HB & HC & _ & HF).
    repeat split; assumption. }
  assert (Hfrac : forall q, 0 <= q -> q <= 0.50 ->
             inputs_number_format (VFloat q) =
             if Qgtb q 0 then Some pct_format else None).
  { intros q H0 H1. rewrite format_of_number_upto_100 by lra.
    assert (Hlt : q < 1) by lra.
    rewrite (proj2 (Qle_bool_false 1 q) Hlt), andb_true_r. reflexivity. }
  split; [|split; [|split; [|split; [|split]]]].
  - destruct (Hcell 6%nat 18%Z _ _ _ eq_refl eq_refl) as (HB & HC & HF).
    split; [exact HB|]. split; [exact HC|].
    rewrite HF. apply format_of_fraction; lra.
  - destruct (Hcell 5%nat 17%Z _ _ _ eq_refl eq_refl) as (HB & HC & HF).
    split; [exact HB|]. split; [exact HC|]. rewrite HF.
    assert (Hq : 500 <= inject_Z (tsrf inp)).
    { change 500 with (inject_Z 500). rewrite <- Zle_Qle. exact Ht0. }
    rewrite (format_of_number_from_1 (VInt (tsrf inp))
               (inject_Z (tsrf inp)) eq_refl) by lra.
    assert (Hgt : 100 < inject_Z (tsrf inp)) by lra.
    rewrite (proj2 (Qgtb_true _ 100) Hgt). reflexivity.
  - destruct (Hcell 2%nat 14%Z _ _ _ eq_refl eq_refl) as (HB & HC & HF).
    split; [exact HB|]. split; [exact HC|]. rewrite HF.
    apply (format_of_number_from_1 (VFloat (system_size_kw inp))
             (system_size_kw inp) eq_refl). lra.
  - destruct (Hcell 7%nat 19%Z _ _ _ eq_refl eq_refl) as (HB & HC & HF).
    split; [exact HB|]. split; [exact HC|]. rewrite HF. apply Hfrac; lra.
  - destruct (Hcell 8%nat 20%Z _ _ _ eq_refl eq_refl) as (HB & HC & HF).
    split; [exact HB|]. split; [exact HC|]. rewrite HF. apply Hfrac; lra.
  - destruct (Hcell 0%nat 12%Z _ _ _ eq_refl eq_refl) as (_ & _ & HF0).
    destruct (Hcell 1%nat 13%Z _ _ _ eq_refl eq_refl) as (_ & _ & HF1).
    split; assumption.
Qed.

(** The default project: 236.6 kW at 0.135 $/kWh and a TSRF of 1250. *)
Lemma inputs_sheet_number_formats_default :
  valid_inputs default_inputs /\
  plain_text (sheet_title default_inputs) = true /\
  plain_text "3.5%" = true /\
  exists ws : list Write,
    inputs_sheet default_inputs (fun _ => "3.5%"%string) = Ok (41%Z, ws) /\
    cell_format ws "C" 18 = Some pct_format /\
    cell_format ws "C" 17 = Some currency_format /\
    cell_format ws "C" 14 = Some currency_format.
Proof.
  assert (Hv : valid_inputs default_inputs) by reflexivity.
  assert (Ht : plain_text (sheet_title default_inputs) = true)
    by (vm_compute; reflexivity).
  assert (Hp : plain_text "3.5%" = true) by (vm_compute; reflexivity).
  split; [exact Hv|]. split; [exact Ht|]. split; [exact Hp|].
  destruct (inputs_sheet_number_formats default_inputs
              (fun _ => "3.5%"%string) Hv Ht Hp)
    as (ws & Hrun & (_ & _ & H18) & (_ & _ & H17) & (_ & _ & H14) & _).
  exists ws. split; [exact Hrun|].
  split; [exact H18|]. split; [exact H17 | exact H14].
Defined.

(** ** The Inputs sheet: no cell is written twice *)

Lemma value_addresses_app (ws ws' : list Write) :
  value_addresses (ws ++ ws') = value_addresses ws ++ value_addresses ws'.
Proof.
  unfold value_addresses. rewrite filter_app, map_app. reflexivity.
Qed.

Lemma input_row_addresses (e : string * PyVal * string) (r : Z) :
  value_addresses (input_row_writes e r) =
  [("B"%string, r); ("C"%string, r); ("D"%string, r)].
Proof.
  destruct e as [[label value] unit_]. unfold input_row_writes.
  destruct (inputs_number_format value); reflexivity.
Qed.

Lemma address_eqb_refl (a : string * Z) : address_eqb a a = true.
Proof.
  unfold address_eqb. rewrite String.eqb_refl, Z.eqb_refl. reflexivity.
Qed.

Lemma distinctb_NoDup (l : list (string * Z)) :
  distinctb l = true -> NoDup l.
Proof.
  induction l as [|a l IH]; cbn [distinctb]; intros H.
  - constructor.
  - apply andb_true_iff in H as [Ha Hl]. constructor; [|apply IH, Hl].
    intros Hin. apply negb_true_iff in Ha.
    assert (Hex : existsb (address_eqb a) l = true)
      by (apply existsb_exists; exists a; split;
          [exact Hin | apply address_eqb_refl]).
    rewrite Hex in Ha. discriminate.
Qed.

(** X14. On inputs the widgets can produce, with a title and an escalation
    text of plain text, the sheet is written without an exception, ends
    in row 41 and has no cell assigned a value twice: the title, the three
    headed blocks and the total row never overwrite one another.  It
    holds 104 values. *)
Theorem inputs_sheet_cells_written_once
        (inp : Inputs) (format_pct1 : Q -> string) :
  valid_inputs inp ->
  plain_text (sheet_title inp) = true ->
  plain_text (format_pct1 (escalation inp)) = true ->
  exists ws : list Write,
    inputs_sheet inp format_pct1 = Ok (41%Z, ws) /\
    NoDup (value_addresses ws) /\
    List.length (value_addresses ws) = 104%nat.
Proof.
  intros Hv Htitle Hpct.
  exists (sheet_writes inp format_pct1).
  split; [apply inputs_sheet_ok; assumption|].
  destruct (valid_inputs_texts inp Hv) as (_ & _ & _ & _ & Hjur).
  unfold sheet_writes.
  rewrite !value_addresses_app.
  unfold inputs. cbn [block_writes].
  rewrite !value_addresses_app, !input_row_addresses.
  unfold sheet_front, toggles, sheet_back, pricing_inputs.
  cbn [block_writes toggle_row_writes cost_row_writes].
  rewrite Hjur. split.
  - apply distinctb_NoDup. vm_compute. reflexivity.
  - vm_compute. reflexivity.
Qed.

(** The default project. *)
Lemma inputs_sheet_cells_written_once_default :
  valid_inputs default_inputs /\
  plain_text (sheet_title default_inputs) = true /\
  plain_text "3.5%" = true /\
  exists ws : list Write,
    inputs_sheet default_inputs (fun _ => "3.5%"%string) = Ok (41%Z, ws) /\
    NoDup (value_addresses ws) /\
    List.length (value_addresses ws) = 104%nat.
Proof.
  assert (Hv : valid_inputs default_inputs) by reflexivity.
  assert (Ht : plain_text (sheet_title default_inputs) = true)
    by (vm_compute; reflexivity).
  assert (Hp : plain_text "3.5%" = true) by (vm_compute; reflexivity).
  split; [exact Hv|]. split; [exact Ht|]. split; [exact Hp|].
  apply (inputs_sheet_cells_written_once default_inputs
           (fun _ => "3.5%"%string) Hv Ht Hp).
Defined.

(** ** The Inputs sheet: the cost breakdown *)

Lemma sheet_back_cost_cells (inp : Inputs) :
  map (fun i => cell_value (sheet_back inp) "B" (24 + Z.of_nat i))
      (seq 0 17) =
  map (fun e => Some (VStr (fst e))) (pricing_inputs inp) /\
  map (fun i => cell_value (sheet_back inp) "C" (24 + Z.of_nat i))
      (seq 0 17) =
  map (fun c => Some (VFloat c)) (pricing_values (pricing inp)) /\
  map (fun i => cell_value (sheet_back inp) "D" (24 + Z.of_nat i))
      (seq 0 17) =
  map (fun c => Some (VFloat (c * system_size_w inp)))
      (pricing_values (pricing inp)) /\
  map (fun i => cell_format (sheet_back inp) "C" (24 + Z.of_nat i))
      (seq 0 17) = repeat (Some "$0.00"%string) 17 /\
  map (fun i => cell_format (sheet_back inp) "D" (24 + Z.of_nat i))
      (seq 0 17) = repeat (Some currency_format) 17 /\
  cell_value (sheet_back inp) "B" 41 = Some (VStr "TOTAL PROJECT COST") /\
  cell_value (sheet_back inp) "C" 41 = Some (VFloat (total_per_watt inp)) /\
  cell_value (sheet_back inp) "D" 41 = Some (VFloat (total_cost inp)) /\
  cell_format (sheet_back inp) "D" 41 = Some currency_format.
Proof.
  repeat split; reflexivity.
Qed.

Lemma sheet_reads_back (inp : Inputs) (format_pct1 : Q -> string)
      (col : string) (r : Z) (v : PyVal) :
  cell_value (sheet_back inp) col r = Some v ->
  cell_value (sheet_writes inp format_pct1) col r = Some v.
Proof.
  intros Hv. unfold sheet_writes.
  rewrite !cell_value_app, Hv. reflexivity.
Qed.

Lemma sheet_format_back (inp : Inputs) (format_pct1 : Q -> string)
      (col : string) (r : Z) (f : string) :
  cell_format (sheet_back inp) col r = Some f ->
  cell_format (sheet_writes inp format_pct1) col r = Some f.
Proof.
  intros Hf. unfold sheet_writes.
  rewrite !cell_format_app, Hf. reflexivity.
Qed.

Lemma column_back {A : Type} (read back : Z -> option A) (first : Z)
      (idx : list nat) (l : list (option A)) :
  (forall r x, back r = Some x -> read r = Some x) ->
  Forall (fun o => o <> None) l ->
  map (fun i => back (first + Z.of_nat i)%Z) idx = l ->
  map (fun i => read (first + Z.of_nat i)%Z) idx = l.
Proof.
  intros Hread. revert l.
  induction idx as [|i idx IH]; intros l Hall Hmap.
  - exact Hmap.
  - destruct l as [|o l]; [discriminate|].
    cbn [map] in Hmap |- *. injection Hmap as Hi Hrest.
    inversion Hall as [|? ? Ho Hl]; subst.
    destruct (back (first + Z.of_nat i)%Z) as [x|] eqn:Hb; [|congruence].
    rewrite (Hread _ _ Hb), (IH _ Hl eq_refl). reflexivity.
Qed.

Lemma Forall_map_Some {A B : Type} (f : A -> B) (l : list A) :
  Forall (fun o => o <> None) (map (fun a => Some (f a)) l).
Proof.
  induction l as [|a l IH]; cbn [map]; constructor; [discriminate | exact IH].
Qed.

Lemma Forall_repeat_Some {A : Type} (x : A) (n : nat) :
  Forall (fun o => o <> None) (repeat (Some x) n).
Proof.
  induction n as [|n IH]; cbn [repeat]; constructor; [discriminate | exact IH].
Qed.

(** X15. On inputs the widgets can produce, with a title and an escalation
    text of plain text, the sheet is written without an exception and the
    cost breakdown of the finished sheet reads back as the pricing form:
    rows 24 to 40 hold, in the order of the form, the 17 category names
    in column B, the 17 unit costs in column C with the format [$0.00],
    and in column D the product of the unit cost and the system size in
    watts, in currency format; row 41, "TOTAL PROJECT COST", holds in
    column C the total per watt, which is Python's sum of the 17 cells
    above it, and in column D the total cost in currency format. *)
Theorem cost_breakdown_read_back (inp : Inputs) (format_pct1 : Q -> string) :
  valid_inputs inp ->
  plain_text (sheet_title inp) = true ->
  plain_text (format_pct1 (escalation inp)) = true ->
  exists ws : list Write,
    inputs_sheet inp format_pct1 = Ok (41%Z, ws) /\
    map (fun i => cell_value ws "B" (24 + Z.of_nat i)) (seq 0 17) =
      map (fun e => Some (VStr (fst e))) (pricing_inputs inp) /\
    map (fun i => cell_value ws "C" (24 + Z.of_nat i)) (seq 0 17) =
      map (fun c => Some (VFloat c)) (pricing_values (pricing inp)) /\
    map (fun i => cell_value ws "D" (24 + Z.of_nat i)) (seq 0 17) =
      map (fun c => Some (VFloat (c * system_size_w inp)))
          (pricing_values (pricing inp)) /\
    map (fun i => cell_format ws "C" (24 + Z.of_nat i)) (seq 0 17) =
      repeat (Some "$0.00"%string) 17 /\
    map (fun i => cell_format ws "D" (24 + Z.of_nat i)) (seq 0 17) =
      repeat (Some currency_format) 17 /\
    cell_value ws "B" 41 = Some (VStr "TOTAL PROJECT COST") /\
    cell_value ws "C" 41 = Some (VFloat (total_per_watt inp)) /\
    total_per_watt inp = py_sum (pricing_values (pricing inp)) /\
    cell_value ws "D" 41 = Some (VFloat (total_cost inp)) /\
    cell_format ws "D" 41 = Some currency_format.
Proof.
  intros Hv Htitle Hpct.
  exists (sheet_writes inp format_pct1).
  split; [apply inputs_sheet_ok; assumption|].
  destruct (sheet_back_cost_cells inp)
    as (HB & HC & HD & HFC & HFD & HB41 & HC41 & HD41 & HF41).
  split.
  { apply (column_back _ (fun r => cell_value (sheet_back inp) "B" r));
      [intros r x; apply sheet_reads_back | apply Forall_map_Some | exact HB]. }
  split.
  { apply (column_back _ (fun r => cell_value (sheet_back inp) "C" r));
      [intros r x; apply sheet_reads_back | apply Forall_map_Some | exact HC]. }
  split.
  { apply (column_back _ (fun r => cell_value (sheet_back inp) "D" r));
      [intros r x; apply sheet_reads_back | apply Forall_map_Some | exact HD]. }
  split.
  { apply (column_back _ (fun r => cell_format (sheet_back inp) "C" r));
      [intros r x; apply sheet_format_back | apply Forall_repeat_Some
      | exact HFC]. }
  split.
  { apply (column_back _ (fun r => cell_format (sheet_back inp) "D" r));
      [intros r x; apply sheet_format_back | apply Forall_repeat_Some
      | exact HFD]. }
  split; [apply sheet_reads_back, HB41|].
  split; [apply sheet_reads_back, HC41|].
  split; [reflexivity|].
  split; [apply sheet_reads_back, HD41|].
  apply sheet_format_back, HF41.
Qed.

(** The default project: the first category and the total. *)
Lemma cost_breakdown_read_back_default :
  valid_inputs default_inputs /\
  plain_text (sheet_title default_inputs) = true /\
  plain_text "3.5%" = true /\
  exists ws : list Write,
    inputs_sheet default_inputs (fun _ => "3.5%"%string) = Ok (41%Z, ws) /\
    cell_value ws "B" 24 = Some (VStr "Modules") /\
    cell_value ws "C" 24 = Some (VFloat 0.28) /\
    cell_value ws "D" 24 = Some (VFloat (0.28 * (236.6 * 1000))) /\
    cell_value ws "B" 41 = Some (VStr "TOTAL PROJECT COST") /\
    cell_value ws "D" 41 = Some (VFloat (total_cost default_inputs)).
Proof.
  assert (Hv : valid_inputs default_inputs) by reflexivity.
  assert (Ht : plain_text (sheet_title default_inputs) = true)
    by (vm_compute; reflexivity).
  assert (Hp : plain_text "3.5%" = true) by (vm_compute; reflexivity).
  split; [exact Hv|]. split; [exact Ht|]. split; [exact Hp|].
  destruct (cost_breakdown_read_back default_inputs
              (fun _ => "3.5%"%string) Hv Ht Hp)
    as (ws & Hrun & HB & HC & HD & _ & _ & HB41 & _ & _ & HD41 & _).
  exists ws. split; [exact Hrun|].
  split; [exact (f_equal (hd None) HB)|].
  split; [exact (f_equal (hd None) HC)|].
  split; [exact (f_equal (hd None) HD)|].
  split; [exact HB41 | exact HD41].
Defined.

(** ** The Inputs sheet: a control character in a name *)

Lemma list_ascii_of_string_append (s t : string) :
  list_ascii_of_string (s ++ t) =
  list_ascii_of_string s ++ list_ascii_of_string t.
Proof.
  induction s as [|c s IH]; simpl; [reflexivity | rewrite IH; reflexivity].
Qed.

(** X16. When the customer name or the project name holds a control
    character that openpyxl refuses (a code from 0 to 8, 11, 12 or from
    14 to 31) and the title is not longer than 32767 characters, the
    first assignment of the sheet, that of the title to B1, raises
    [IllegalCharacterError]: no sheet is finished, whatever the other
    inputs are. *)
Theorem inputs_sheet_illegal_character
        (inp : Inputs) (format_pct1 : Q -> string) :
  (N.of_nat (String.length (sheet_title inp)) <=? 32767)%N = true ->
  existsb illegal_character (list_ascii_of_string (customer_name inp))
  || existsb illegal_character (list_ascii_of_string (project_name inp))
  = true ->
  inputs_sheet inp format_pct1 = Raise "IllegalCharacterError".
Proof.
  intros Hlen Hill. apply N.leb_le in Hlen.
  assert (Htitle : existsb illegal_character
                     (list_ascii_of_string (sheet_title inp)) = true).
  { unfold sheet_title.
    rewrite !list_ascii_of_string_append, !existsb_app.
    apply orb_true_iff in Hill as [Hc | Hp].
    - rewrite Hc. reflexivity.
    - rewrite Hp. rewrite !orb_true_r. reflexivity. }
  unfold inputs_sheet. cbn [set_value]. unfold check_string.
  rewrite (substring_whole (sheet_title inp) max_cell_text)
    by (unfold max_cell_text; lia).
  rewrite Htitle. reflexivity.
Qed.

(** A bell character (code 7) in front of the customer name. *)
Lemma inputs_sheet_illegal_character_bell :
  (N.of_nat (String.length (sheet_title control_character_inputs))
   <=? 32767)%N = true /\
  existsb illegal_character
    (list_ascii_of_string (customer_name control_character_inputs))
  || existsb illegal_character
       (list_ascii_of_string (project_name control_character_inputs))
  = true /\
  valid_inputs control_character_inputs /\
  inputs_sheet control_character_inputs (fun _ => "3.5%"%string) =
    Raise "IllegalCharacterError".
Proof.
  assert (Hlen : (N.of_nat (String.length (sheet_title control_character_inputs))
                  <=? 32767)%N = true) by (vm_compute; reflexivity).
  assert (Hill : existsb illegal_character
                   (list_ascii_of_string
                      (customer_name control_character_inputs))
                 || existsb illegal_character
                      (list_ascii_of_string
                         (project_name control_character_inputs))
                 = true) by (vm_compute; reflexivity).
  split; [exact Hlen|]. split; [exact Hill|].
  split; [reflexivity|].
  apply (inputs_sheet_illegal_character control_character_inputs
           (fun _ => "3.5%"%string) Hlen Hill).
Defined.
